(** * The weather aggregation endpoint ([GET] of the route handler)

    A shallow embedding of the server-side handler that queries the
    weather provider three times (current conditions, forecast, UV index)
    and merges the answers into one record.

    Conventions of the model.
    - A JavaScript string is held as the UTF-8 bytes of its (well-formed)
      text, in a [string]; [String_length] counts UTF-16 code units from
      those bytes, as [.length] does.
    - A JavaScript number is held as an exact rational ([Q]) where the
      handler rounds it at once; [Math_round] rounds half-way cases up, as
      [Math.round] does.  The precipitation of a forecast entry, which is
      sent unrounded, is the binary64 product itself ([float]).
    - The payload types are the provider's contract: a field that the
      handler reads behind [?.] or [||] is an [option], the other fields
      (name, sys, coord, main, weather[0]) are present.  A body that
      cannot be parsed makes [.json()] throw.
    - [console] output and [fetch] calls are recorded, in order, in a trace;
      exceptions are values of the handler's monad.
    - [NextResponse.json] belongs to the framework: it builds a reply
      from a body and a status, and throws for a status outside 200-599
      or a status that admits no body. *)

From Stdlib Require Import PrimFloat.
From Stdlib Require Import ZArith QArith Qround List String Ascii Bool Lia.
From Stdlib Require Import DecimalString.
Import ListNotations.

Local Open Scope string_scope.
Set Warnings "-inexact-float".

(** ** Strings *)

(** Number of UTF-16 code units contributed by one byte of UTF-8 text:
    a continuation byte gives none, the first byte of a four-byte sequence
    gives two (a surrogate pair), any other first byte gives one. *)
Definition code_units (c : ascii) : nat :=
  let n := nat_of_ascii c in
  if Nat.ltb n 128 then 1%nat
  else if Nat.ltb n 192 then 0%nat
  else if Nat.ltb n 240 then 1%nat
  else 2%nat.

(** [s.length] *)
Fixpoint String_length (s : string) : nat :=
  match s with
  | EmptyString => 0%nat
  | String c s' => (code_units c + String_length s')%nat
  end.

(** A string is truthy when it is not empty. *)
Definition truthy (s : string) : bool :=
  match s with
  | EmptyString => false
  | String _ _ => true
  end.

(** [x || d] on a string that may be [null]. *)
Definition or_string (x : option string) (d : string) : string :=
  match x with
  | Some s => if truthy s then s else d
  | None => d
  end.

Fixpoint drop (n : nat) (s : string) : string :=
  match n, s with
  | O, _ => s
  | S _, EmptyString => EmptyString
  | S n', String _ s' => drop n' s'
  end.

(** [s.includes(pat)] *)
Fixpoint includes (pat s : string) : bool :=
  if prefix pat s then true
  else match s with
       | EmptyString => false
       | String _ s' => includes pat s'
       end.

(** [s.replace(pat, rep)] for a string pattern and a replacement without
    [$]: only the first occurrence of [pat] is replaced. *)
Fixpoint replace (pat rep s : string) : string :=
  if prefix pat s then rep ++ drop (length pat) s
  else match s with
       | EmptyString => EmptyString
       | String c s' => String c (replace pat rep s')
       end.

Definition unreserved (c : ascii) : bool :=
  let n := nat_of_ascii c in
  (Nat.leb 65 n && Nat.leb n 90)          (* A-Z *)
  || (Nat.leb 97 n && Nat.leb n 122)      (* a-z *)
  || (Nat.leb 48 n && Nat.leb n 57)       (* 0-9 *)
  || Nat.eqb n 45 || Nat.eqb n 95 || Nat.eqb n 46 || Nat.eqb n 33   (* - _ . ! *)
  || Nat.eqb n 126 || Nat.eqb n 42 || Nat.eqb n 39                  (* ~ * ' *)
  || Nat.eqb n 40 || Nat.eqb n 41.                                  (* ( ) *)

Definition hex_digit (n : nat) : ascii :=
  match get n "0123456789ABCDEF" with
  | Some c => c
  | None => "0"%char
  end.

Definition percent_encode (c : ascii) : string :=
  let n := nat_of_ascii c in
  String "%" (String (hex_digit (n / 16)) (String (hex_digit (n mod 16)) EmptyString)).

(** [encodeURIComponent(s)]: every byte of the UTF-8 text is escaped except
    the unreserved ASCII characters. *)
Fixpoint encodeURIComponent (s : string) : string :=
  match s with
  | EmptyString => EmptyString
  | String c s' =>
      (if unreserved c then String c EmptyString else percent_encode c)
      ++ encodeURIComponent s'
  end.

(** Decimal text of a status code, as a template literal prints it. *)
Definition status_toString (n : N) : string :=
  NilZero.string_of_uint (N.to_uint n).

(** ** Numbers *)

(** [Math.round(x)] *)
Definition Math_round (x : Q) : Z := Qfloor (x + (1 # 2)).

(** [x || d] on a number that may be absent: zero is falsy too. *)
Definition or_number (x : option Q) (d : Q) : Q :=
  match x with
  | Some v => if Qeq_bool v 0 then d else v
  | None => d
  end.

(** ** Payloads of the provider *)

Module CurrentPayload.
Record t : Type := {
  name : string;
  sys_country : string;
  coord_lat : Q;
  coord_lon : Q;
  main_temp : Q;
  main_feels_like : Q;
  main_humidity : Q;
  main_pressure : Q;
  visibility : option Q;
  wind_speed : option Q;          (* [wind?.speed] *)
  weather0_main : string;
  weather0_description : string;
  weather0_icon : string
}.
End CurrentPayload.

Module ForecastItem.
Record t : Type := {
  dt : Q;
  main_temp : Q;
  main_humidity : Q;
  weather0_main : string;
  weather0_description : string;
  weather0_icon : string;
  wind_speed : option Q;          (* [wind?.speed] *)
  pop : float
}.
End ForecastItem.

Module ForecastPayload.
Record t : Type := { list : list ForecastItem.t }.
End ForecastPayload.

Module UVPayload.
Record t : Type := { value : option Q }.
End UVPayload.

(** ** The record returned to the caller *)

Module HourlyForecast.
Record t : Type := {
  time : Q;
  temperature : Z;
  condition : string;
  description : string;
  iconCode : string;
  humidity : Q;
  windSpeed : Z;
  precipitation : float
}.
End HourlyForecast.

Record WeatherData : Type := {
  city : string;
  country : string;
  temperature : Z;
  condition : string;
  description : string;
  humidity : Q;
  windSpeed : Z;
  windUnit : string;
  visibility : Z;
  visibilityUnit : string;
  pressure : Q;
  feelsLike : Z;
  uvIndex : Z;
  icon : string;
  iconCode : string;
  units : string;
  tempUnit : string;
  hourlyForecast : list HourlyForecast.t
}.

(** What a call gives: a value, or an exception (its printed form). *)
Inductive attempt (A : Type) : Type :=
| Returned (a : A)
| Thrown (e : string).
Arguments Returned {A} a.
Arguments Thrown {A} e.

Module NextResponse.
Inductive body : Type :=
| Error (error : string)
| Data (data : WeatherData).

Record t : Type := { status : N; payload : body }.

(** The statuses that admit no body: 101, 103, 204, 205 and 304. *)
Definition null_body_status (s : N) : bool :=
  (s =? 101)%N || (s =? 103)%N || (s =? 204)%N || (s =? 205)%N || (s =? 304)%N.

(** The statuses with which a reply that has a body can be built. *)
Definition accepts (s : N) : bool :=
  (200 <=? s)%N && (s <=? 599)%N && negb (null_body_status s).

(** [NextResponse.json(b, { status })]; the status is 200 when omitted.
    The constructor throws a [RangeError] for a status outside 200-599
    and a [TypeError] for a body with a status that admits none. *)
Definition json (b : body) (init : option N) : attempt t :=
  let s := match init with Some s => s | None => 200%N end in
  if negb ((200 <=? s)%N && (s <=? 599)%N) then
    Thrown "RangeError: init.status must be in the range of 200 to 599, inclusive."
  else if null_body_status s then
    Thrown "TypeError: Response constructor: Invalid response status code"
  else Returned {| status := s; payload := b |}.
End NextResponse.

(** ** Effects: the trace and exceptions *)

Inductive level : Type := log | warn | error.

Inductive event : Type :=
| Console (l : level) (label arg : string)
| Fetch (url : string).

Definition M (A : Type) : Type := (list event * attempt A)%type.

Definition ret {A} (a : A) : M A := ([], Returned a).

Definition bind {A B} (m : M A) (f : A -> M B) : M B :=
  match m with
  | (t, Returned a) => let (t', r) := f a in ((t ++ t')%list, r)
  | (t, Thrown e) => (t, Thrown e)
  end.

(** [try { m } catch (e) { h e }] *)
Definition try_catch {A} (m : M A) (h : string -> M A) : M A :=
  match m with
  | (t, Thrown e) => let (t', r) := h e in ((t ++ t')%list, r)
  | (t, Returned a) => (t, Returned a)
  end.

Definition console (l : level) (label arg : string) : M unit :=
  ([Console l label arg], Returned tt).

Declare Scope js_scope.
Delimit Scope js_scope with js.
Notation "x <- m ;; k" := (bind m (fun x => k))
  (at level 61, m at next level, right associativity) : js_scope.
Notation "m ;; k" := (bind m (fun _ => k))
  (at level 61, right associativity) : js_scope.

(** ** The network *)

Module Response.
Record t (A : Type) : Type := {
  status : N;
  text : attempt string;    (* what [.text()] resolves to, or throws *)
  json : attempt A          (* what [.json()] resolves to, or throws *)
}.
Arguments status {A} _.
Arguments text {A} _.
Arguments json {A} _.

(** [response.ok]: a status in the range 200-299. *)
Definition ok {A} (r : t A) : bool :=
  (200 <=? status r)%N && (status r <=? 299)%N.
End Response.

(** What a [fetch] does: it rejects (network failure) or resolves with a
    response. *)
Definition server (A : Type) : Type := string -> attempt (Response.t A).

Record upstream : Type := {
  weather_api : server CurrentPayload.t;
  forecast_api : server ForecastPayload.t;
  uvi_api : server UVPayload.t
}.

Definition fetch {A} (srv : server A) (url : string) : M (Response.t A) :=
  ([Fetch url], srv url).

Definition Response_json {A} (r : Response.t A) : M A := ([], Response.json r).

Definition Response_text {A} (r : Response.t A) : M string := ([], Response.text r).

Definition NextResponse_json (b : NextResponse.body) (init : option N)
  : M NextResponse.t :=
  ([], NextResponse.json b init).

Definition OPENWEATHER_BASE_URL : string := "https://api.openweathermap.org/data/2.5".

(** The query parameters of a request: [searchParams.get] gives [null]
    for a parameter that is absent. *)
Record NextRequest : Type := {
  param_city : option string;
  param_units : option string
}.

(** ** The handler *)

Section Handler.

(** [String.prototype.toLowerCase] and the conversion of a number to its
    text in a template literal are the runtime's. *)
Variable toLowerCase : string -> string.
Variable Number_toString : Q -> string.

Local Open Scope js_scope.

(** The callback mapped over the forecast list. *)
Definition forecast_item (units : string) (item : ForecastItem.t)
  : HourlyForecast.t :=
  {| HourlyForecast.time := ForecastItem.dt item;
     HourlyForecast.temperature := Math_round (ForecastItem.main_temp item);
     HourlyForecast.condition := ForecastItem.weather0_main item;
     HourlyForecast.description := ForecastItem.weather0_description item;
     HourlyForecast.iconCode := ForecastItem.weather0_icon item;
     HourlyForecast.humidity := ForecastItem.main_humidity item;
     HourlyForecast.windSpeed :=
       if units =? "imperial"
       then Math_round (or_number (ForecastItem.wind_speed item) 0)
       else Math_round (or_number (ForecastItem.wind_speed item) 0 * 3.6);
     HourlyForecast.precipitation := (ForecastItem.pop item * 100)%float |}.

(** The forecast branch: [let hourlyForecast = []; try { ... } catch { ... }]. *)
Definition get_hourlyForecast (net : upstream) (forecastUrl units : string)
  : M (list HourlyForecast.t) :=
  try_catch
    (forecastResponse <- fetch (forecast_api net) forecastUrl ;;
     if Response.ok forecastResponse then
       forecastData <- Response_json forecastResponse ;;
       ret (map (forecast_item units)
                (firstn 8 (ForecastPayload.list forecastData)))
     else ret [])
    (fun forecastError =>
       console warn "Forecast fetch failed:" forecastError ;;
       ret []).

Definition uvUrl (key : string) (weatherData : CurrentPayload.t) : string :=
  OPENWEATHER_BASE_URL ++ "/uvi?lat="
    ++ Number_toString (CurrentPayload.coord_lat weatherData)
    ++ "&lon=" ++ Number_toString (CurrentPayload.coord_lon weatherData)
    ++ "&appid=" ++ key.

(** The UV branch: [let uvIndex = 0; try { ... } catch { ... }]. *)
Definition get_uvIndex (net : upstream) (key : string)
           (weatherData : CurrentPayload.t) : M Z :=
  try_catch
    (uvResponse <- fetch (uvi_api net) (uvUrl key weatherData) ;;
     if Response.ok uvResponse then
       uvData <- Response_json uvResponse ;;
       ret (Math_round (or_number (UVPayload.value uvData) 0))
     else ret 0%Z)
    (fun uvError =>
       console warn "UV index fetch failed:" uvError ;;
       ret 0%Z).

Definition degree : string :=
  String (ascii_of_nat 194) (String (ascii_of_nat 176) EmptyString).

Definition transformedData (units : string) (weatherData : CurrentPayload.t)
           (uvIndex : Z) (hourlyForecast : list HourlyForecast.t)
  : WeatherData :=
  let windSpeed := or_number (CurrentPayload.wind_speed weatherData) 0 in
  let '(windSpeed, windUnit) :=
    if units =? "imperial"
    then (windSpeed, "mph")
    else (inject_Z (Math_round (windSpeed * 3.6)), "km/h") in
  {| city := CurrentPayload.name weatherData;
     country := CurrentPayload.sys_country weatherData;
     temperature := Math_round (CurrentPayload.main_temp weatherData);
     condition := CurrentPayload.weather0_main weatherData;
     description := CurrentPayload.weather0_description weatherData;
     humidity := CurrentPayload.main_humidity weatherData;
     windSpeed := Math_round windSpeed;
     windUnit := windUnit;
     visibility :=
       Math_round (or_number (CurrentPayload.visibility weatherData) 10000
                   / (if units =? "imperial" then 1609.34 else 1000));
     visibilityUnit := if units =? "imperial" then "mi" else "km";
     pressure := CurrentPayload.main_pressure weatherData;
     feelsLike := Math_round (CurrentPayload.main_feels_like weatherData);
     uvIndex := uvIndex;
     icon := toLowerCase (CurrentPayload.weather0_main weatherData);
     iconCode := CurrentPayload.weather0_icon weatherData;
     units := units;
     tempUnit := if units =? "imperial" then degree ++ "F" else degree ++ "C";
     hourlyForecast := hourlyForecast |}.

Definition weatherUrl (city key units : string) : string :=
  OPENWEATHER_BASE_URL ++ "/weather?q=" ++ encodeURIComponent city
    ++ "&appid=" ++ key ++ "&units=" ++ units.

Definition forecastUrl (city key units : string) : string :=
  OPENWEATHER_BASE_URL ++ "/forecast?q=" ++ encodeURIComponent city
    ++ "&appid=" ++ key ++ "&units=" ++ units.

(** The reply to a non-success status of the current-conditions call. *)
Definition upstream_error (status : N) : M NextResponse.t :=
  if (status =? 401)%N then
    NextResponse_json
      (NextResponse.Error
         "Invalid API key. Please check your OpenWeatherMap API key and ensure it's activated.")
      (Some 401%N)
  else if (status =? 404)%N then
    NextResponse_json
      (NextResponse.Error "City not found. Please check the spelling and try again.")
      (Some 404%N)
  else if (status =? 429)%N then
    NextResponse_json
      (NextResponse.Error "API rate limit exceeded. Please try again later.")
      (Some 429%N)
  else
    NextResponse_json
      (NextResponse.Error
         ("Weather service error (" ++ status_toString status
            ++ "). Please try again later."))
      (Some status).

(** The body of the outer [try]. *)
Definition aggregate (net : upstream) (city key units : string)
  : M NextResponse.t :=
  console log "Fetching weather from:"
          (replace key "[API_KEY]" (weatherUrl city key units)) ;;
  weatherResponse <- fetch (weather_api net) (weatherUrl city key units) ;;
  if negb (Response.ok weatherResponse) then
    errorText <- Response_text weatherResponse ;;
    console error "Weather API error response:" errorText ;;
    upstream_error (Response.status weatherResponse)
  else
    weatherData <- Response_json weatherResponse ;;
    console log "Fetching forecast from:"
            (replace key "[API_KEY]" (forecastUrl city key units)) ;;
    hourlyForecast <- get_hourlyForecast net (forecastUrl city key units) units ;;
    uvIndex <- get_uvIndex net key weatherData ;;
    NextResponse_json
      (NextResponse.Data
         (transformedData units weatherData uvIndex hourlyForecast))
      None.

(** The outer [catch] block. *)
Definition fallback (e : string) : M NextResponse.t :=
  console error "Weather API error:" e ;;
  NextResponse_json
    (NextResponse.Error
       "Failed to fetch weather data. Please check your internet connection and try again.")
    (Some 500%N).

(** [GET(request)], with the configured [OPENWEATHER_API_KEY] (absent
    when the variable is not set) and the network as arguments. *)
Definition GET (OPENWEATHER_API_KEY : option string) (net : upstream)
           (request : NextRequest) : M NextResponse.t :=
  let units := or_string (param_units request) "imperial" in
  match param_city request with
  | None =>
      NextResponse_json (NextResponse.Error "City parameter is required")
                        (Some 400%N)
  | Some city =>
      if negb (truthy city) then
        NextResponse_json (NextResponse.Error "City parameter is required")
                          (Some 400%N)
      else
        match OPENWEATHER_API_KEY with
        | None =>
            NextResponse_json
              (NextResponse.Error "OpenWeatherMap API key not configured")
              (Some 500%N)
        | Some key =>
            if negb (truthy key) then
              NextResponse_json
                (NextResponse.Error "OpenWeatherMap API key not configured")
                (Some 500%N)
            else if negb (Nat.eqb (String_length key) 32) then
              NextResponse_json
                (NextResponse.Error
                   "Invalid API key format. Please check your OPENWEATHER_API_KEY.")
                (Some 500%N)
            else
              try_catch (aggregate net city key units) fallback
        end
  end.

End Handler.

(** ** Vocabulary of the properties *)

(** The effective unit system of a request: [searchParams.get("units") || "imperial"]. *)
Definition units_of (request : NextRequest) : string :=
  or_string (param_units request) "imperial".

(** The payload of a current-conditions call that succeeds: the provider
    answers with a success status and a body that parses to a payload of
    its contract. *)
Definition current_conditions (net : upstream) (city key units : string)
  : option CurrentPayload.t :=
  match weather_api net (weatherUrl city key units) with
  | Returned r =>
      if Response.ok r then
        match Response.json r with
        | Returned w => Some w
        | Thrown _ => None
        end
      else None
  | Thrown _ => None
  end.


(** What a request that obtains its current conditions emits before the
    two best-effort branches run. *)
Definition preamble (city key units : string) : list event :=
  [ Console log "Fetching weather from:"
            (replace key "[API_KEY]" (weatherUrl city key units));
    Fetch (weatherUrl city key units);
    Console log "Fetching forecast from:"
            (replace key "[API_KEY]" (forecastUrl city key units)) ].

(** The addresses fetched in a trace, in order. *)
Fixpoint fetches (t : list event) : list string :=
  match t with
  | [] => []
  | Fetch url :: t' => url :: fetches t'
  | Console _ _ _ :: t' => fetches t'
  end.

(** The diagnostic messages of a trace, in order. *)
Fixpoint messages (t : list event) : list string :=
  match t with
  | [] => []
  | Console _ label arg :: t' => (label ++ " " ++ arg) :: messages t'
  | Fetch _ :: t' => messages t'
  end.

(** The credential is configured and has the 32 characters of a key. *)
Definition credential_valid (key : option string) : bool :=
  match key with
  | Some k => Nat.eqb (String_length k) 32
  | None => false
  end.

Definition is_whitespace (c : ascii) : bool :=
  let n := nat_of_ascii c in
  (Nat.leb 9 n && Nat.leb n 13) || Nat.eqb n 32.

Fixpoint trimStart (s : string) : string :=
  match s with
  | EmptyString => EmptyString
  | String c s' => if is_whitespace c then trimStart s' else s
  end.

Fixpoint trimEnd (s : string) : string :=
  match s with
  | EmptyString => EmptyString
  | String c s' =>
      match trimEnd s' with
      | EmptyString => if is_whitespace c then EmptyString else String c EmptyString
      | rest => String c rest
      end
  end.

(** Trimming as the specification words it: surrounding (ASCII) whitespace
    removed.  The handler itself never trims. *)
Definition trim (s : string) : string := trimEnd (trimStart s).


(** ** Sample runs *)

Module Sample.

(** Stand-ins for the two runtime functions: lower-casing of ASCII
    letters, and the text of a whole number. *)
Definition lower_ascii (c : ascii) : ascii :=
  let n := nat_of_ascii c in
  if Nat.leb 65 n && Nat.leb n 90 then ascii_of_nat (n + 32) else c.

Fixpoint toLowerCase (s : string) : string :=
  match s with
  | EmptyString => EmptyString
  | String c s' => String (lower_ascii c) (toLowerCase s')
  end.

Definition Number_toString (q : Q) : string :=
  NilZero.string_of_int (Z.to_int (Qfloor q)).

Definition key : string := "0123456789abcdef0123456789abcdef".

Definition paris (vis speed : option Q) : CurrentPayload.t :=
  {| CurrentPayload.name := "Paris";
     CurrentPayload.sys_country := "FR";
     CurrentPayload.coord_lat := 49;
     CurrentPayload.coord_lon := 2;
     CurrentPayload.main_temp := 20.6;
     CurrentPayload.main_feels_like := 19.4;
     CurrentPayload.main_humidity := 50;
     CurrentPayload.main_pressure := 1013;
     CurrentPayload.visibility := vis;
     CurrentPayload.wind_speed := speed;
     CurrentPayload.weather0_main := "Clouds";
     CurrentPayload.weather0_description := "few clouds";
     CurrentPayload.weather0_icon := "02d" |}.

Definition slot (t : Q) (speed : option Q) (p : float) : ForecastItem.t :=
  {| ForecastItem.dt := t;
     ForecastItem.main_temp := 18.5;
     ForecastItem.main_humidity := 60;
     ForecastItem.weather0_main := "Rain";
     ForecastItem.weather0_description := "light rain";
     ForecastItem.weather0_icon := "10d";
     ForecastItem.wind_speed := speed;
     ForecastItem.pop := p |}.

Definition answer {A} (status : N) (a : A) : attempt (Response.t A) :=
  Returned {| Response.status := status;
              Response.text := Returned "{}";
              Response.json := Returned a |}.

(** A provider whose three endpoints answer with status 200. *)
Definition healthy (w : CurrentPayload.t) (l : list ForecastItem.t)
           (uv : option Q) : upstream :=
  {| weather_api := fun _ => answer 200 w;
     forecast_api := fun _ => answer 200 {| ForecastPayload.list := l |};
     uvi_api := fun _ => answer 200 {| UVPayload.value := uv |} |}.

(** Current conditions answer; the forecast call is rejected by the
    network and the UV call answers 503. *)
Definition degraded (w : CurrentPayload.t) : upstream :=
  {| weather_api := fun _ => answer 200 w;
     forecast_api := fun _ => Thrown "TypeError: fetch failed";
     uvi_api := fun _ => answer 503 {| UVPayload.value := Some 7%Q |} |}.

(** The current-conditions call answers with the given status. *)
Definition refusing (status : N) : upstream :=
  {| weather_api := fun _ => answer status (paris None None);
     forecast_api := fun _ => Thrown "TypeError: fetch failed";
     uvi_api := fun _ => Thrown "TypeError: fetch failed" |}.

Definition request (c u : option string) : NextRequest :=
  {| param_city := c; param_units := u |}.

Definition run := GET toLowerCase Number_toString.

(** A metric request served while the forecast and UV calls fail. *)
Definition metric_run : M NextResponse.t :=
  run (Some key) (degraded (paris (Some 10000) (Some 10)))
      (request (Some "Paris") (Some "metric")).

Definition metric_record : WeatherData :=
  transformedData toLowerCase "metric" (paris (Some 10000) (Some 10)) 0 [].

(** A request without units, answered by a payload without visibility. *)
Definition default_visibility_run : M NextResponse.t :=
  run (Some key) (degraded (paris None (Some 4))) (request (Some "Paris") None).

Definition default_visibility_record : WeatherData :=
  transformedData toLowerCase "imperial" (paris None (Some 4)) 0 [].

(** Nine forecast entries, stamped 1 to 9. *)
Definition nine_slots : list ForecastItem.t :=
  map (fun n => slot (inject_Z (Z.of_nat n)) (Some 2.5) 0.125%float) (seq 1 9).

End Sample.

(** ** More vocabulary *)

(** The character occurs in the string. *)
Fixpoint occurs (c : ascii) (s : string) : bool :=
  match s with
  | EmptyString => false
  | String x s' => Ascii.eqb c x || occurs c s'
  end.

(** Every character of the string passes the test. *)
Fixpoint all_chars (p : ascii -> bool) (s : string) : bool :=
  match s with
  | EmptyString => true
  | String x s' => p x && all_chars p s'
  end.

(** The [console.log] lines of a trace (not the warnings or errors). *)
Fixpoint logged (t : list event) : list string :=
  match t with
  | [] => []
  | Console log _ arg :: t' => arg :: logged t'
  | _ :: t' => logged t'
  end.

(** The endpoint seen from a caller: whatever is asked, it answers with
    the given reply, serialised as JSON. *)
Definition answering (reply : NextResponse.t) : server NextResponse.body :=
  fun _ =>
    Returned {| Response.status := NextResponse.status reply;
                Response.text := Returned "";
                Response.json := Returned (NextResponse.payload reply) |}.

(** * The page ([page.tsx]) *)

Module Client.

(** [x > y] on numbers. *)
Definition gt (x y : Q) : bool := negb (Qle_bool x y).

(** ** Icons *)

Inductive component : Type := Sun | Cloud | CloudRain | CloudSnow | Zap | CloudDrizzle.

(** [<Component className=... />] *)
Record element : Type := { tag : component; className : string }.

Inductive size : Type := sm | lg.

Section Icons.

Variable toLowerCase : string -> string.

Definition sizeClass (size : size) : string :=
  match size with
  | sm => "h-8 w-8"
  | lg => "h-16 w-16"
  end.

(** The chain of tests on the icon code; [None] when none applies and
    control falls through to the [switch]. *)
Definition icon_by_code (sizeClass iconCode : string) : option element :=
  if includes "01" iconCode then
    Some {| tag := Sun; className := sizeClass ++ " text-yellow-500" |}
  else if includes "02" iconCode || includes "03" iconCode then
    Some {| tag := Cloud; className := sizeClass ++ " text-gray-400" |}
  else if includes "04" iconCode then
    Some {| tag := Cloud; className := sizeClass ++ " text-gray-500" |}
  else if includes "09" iconCode then
    Some {| tag := CloudDrizzle; className := sizeClass ++ " text-blue-400" |}
  else if includes "10" iconCode then
    Some {| tag := CloudRain; className := sizeClass ++ " text-blue-500" |}
  else if includes "11" iconCode then
    Some {| tag := Zap; className := sizeClass ++ " text-purple-500" |}
  else if includes "13" iconCode then
    Some {| tag := CloudSnow; className := sizeClass ++ " text-blue-200" |}
  else if includes "50" iconCode then
    Some {| tag := Cloud; className := sizeClass ++ " text-gray-300" |}
  else None.

(** The [switch (condition.toLowerCase())]. *)
Definition icon_by_condition (sizeClass condition : string) : element :=
  let c := toLowerCase condition in
  if c =? "clear" then
    {| tag := Sun; className := sizeClass ++ " text-yellow-500" |}
  else if c =? "clouds" then
    {| tag := Cloud; className := sizeClass ++ " text-gray-400" |}
  else if c =? "rain" then
    {| tag := CloudRain; className := sizeClass ++ " text-blue-500" |}
  else if c =? "drizzle" then
    {| tag := CloudDrizzle; className := sizeClass ++ " text-blue-400" |}
  else if c =? "snow" then
    {| tag := CloudSnow; className := sizeClass ++ " text-blue-200" |}
  else if c =? "thunderstorm" then
    {| tag := Zap; className := sizeClass ++ " text-purple-500" |}
  else if (c =? "mist") || (c =? "fog") || (c =? "haze") then
    {| tag := Cloud; className := sizeClass ++ " text-gray-300" |}
  else
    {| tag := Sun; className := sizeClass ++ " text-yellow-500" |}.

(** [getWeatherIcon(condition, iconCode?, size)] *)
Definition getWeatherIcon (condition : string) (iconCode : option string)
           (size : size) : element :=
  match iconCode with
  | Some code =>
      if truthy code then
        match icon_by_code (sizeClass size) code with
        | Some e => e
        | None => icon_by_condition (sizeClass size) condition
        end
      else icon_by_condition (sizeClass size) condition
  | None => icon_by_condition (sizeClass size) condition
  end.

End Icons.

(** ** Labels *)

Definition getUVIndexColor (uvIndex : Q) : string :=
  if Qle_bool uvIndex 2 then "bg-green-500"
  else if Qle_bool uvIndex 5 then "bg-yellow-500"
  else if Qle_bool uvIndex 7 then "bg-orange-500"
  else if Qle_bool uvIndex 10 then "bg-red-500"
  else "bg-purple-500".

Definition getUVIndexLabel (uvIndex : Q) : string :=
  if Qle_bool uvIndex 2 then "Low"
  else if Qle_bool uvIndex 5 then "Moderate"
  else if Qle_bool uvIndex 7 then "High"
  else if Qle_bool uvIndex 10 then "Very High"
  else "Extreme".

Definition getWindSpeedDescription (windSpeed : Q) (unit : string) : string :=
  if unit =? "mph" then
    if gt windSpeed 25 then "Strong"
    else if gt windSpeed 15 then "Moderate"
    else "Light"
  else
    if gt windSpeed 40 then "Strong"
    else if gt windSpeed 20 then "Moderate"
    else "Light".

Definition getVisibilityDescription (visibility : Q) (unit : string) : string :=
  let threshold : Q := if unit =? "mi" then 6 else 10 in
  let goodThreshold : Q := if unit =? "mi" then 3 else 5 in
  if gt visibility threshold then "Excellent"
  else if gt visibility goodThreshold then "Good"
  else "Poor".

(** ** [capitalizeWords] *)

(** [\w] of a regular expression without flags. *)
Definition word_char (c : ascii) : bool :=
  let n := nat_of_ascii c in
  (Nat.leb 65 n && Nat.leb n 90) || (Nat.leb 97 n && Nat.leb n 122)
  || (Nat.leb 48 n && Nat.leb n 57) || Nat.eqb n 95.

(** [char.toUpperCase()] of one word character. *)
Definition toUpperCase (c : ascii) : ascii :=
  let n := nat_of_ascii c in
  if Nat.leb 97 n && Nat.leb n 122 then ascii_of_nat (n - 32) else c.

(** The replacement of every match of [\b\w], scanning from the left;
    [inside] tells whether the previous character is a word character. *)
Fixpoint capitalize_from (inside : bool) (str : string) : string :=
  match str with
  | EmptyString => EmptyString
  | String c rest =>
      String (if word_char c && negb inside then toUpperCase c else c)
             (capitalize_from (word_char c) rest)
  end.

(** [str.replace(/\b\w/g, (char) => char.toUpperCase())] *)
Definition capitalizeWords (str : string) : string := capitalize_from false str.

(** ** [String.prototype.trim] *)

(** One white-space or line-terminator character at the head of the
    text, dropped: U+0009-000D, U+0020, U+00A0, U+1680, U+2000-200A,
    U+2028, U+2029, U+202F, U+205F, U+3000 and U+FEFF in UTF-8. *)
Definition skip_space (s : string) : option string :=
  match s with
  | EmptyString => None
  | String c1 s1 =>
      let n1 := nat_of_ascii c1 in
      if (Nat.leb 9 n1 && Nat.leb n1 13) || Nat.eqb n1 32 then Some s1
      else
        match s1 with
        | EmptyString => None
        | String c2 s2 =>
            let n2 := nat_of_ascii c2 in
            if Nat.eqb n1 194 && Nat.eqb n2 160 then Some s2
            else
              match s2 with
              | EmptyString => None
              | String c3 s3 =>
                  let n3 := nat_of_ascii c3 in
                  if (Nat.eqb n1 225 && Nat.eqb n2 154 && Nat.eqb n3 128)
                     || (Nat.eqb n1 226 && Nat.eqb n2 128
                         && ((Nat.leb 128 n3 && Nat.leb n3 138)
                             || Nat.eqb n3 168 || Nat.eqb n3 169 || Nat.eqb n3 175))
                     || (Nat.eqb n1 226 && Nat.eqb n2 129 && Nat.eqb n3 159)
                     || (Nat.eqb n1 227 && Nat.eqb n2 128 && Nat.eqb n3 128)
                     || (Nat.eqb n1 239 && Nat.eqb n2 187 && Nat.eqb n3 191)
                  then Some s3
                  else None
              end
        end
  end.

Fixpoint trimStart_within (fuel : nat) (s : string) : string :=
  match fuel with
  | O => s
  | S fuel' =>
      match skip_space s with
      | Some s' => trimStart_within fuel' s'
      | None => s
      end
  end.

(** [s.trimStart()]: every step drops at least one byte, so the length of
    the text is fuel enough. *)
Definition String_trimStart (s : string) : string :=
  trimStart_within (length s) s.

(** The text is white space only. *)
Definition blank (s : string) : bool := negb (truthy (String_trimStart s)).

(** [s.trimEnd()] *)
Fixpoint String_trimEnd (s : string) : string :=
  match s with
  | EmptyString => EmptyString
  | String c s' => if blank s then EmptyString else String c (String_trimEnd s')
  end.

(** [s.trim()] *)
Definition String_trim (s : string) : string := String_trimEnd (String_trimStart s).

(** ** State and event handlers of [WeatherApp] *)

Module State.
Record t : Type := {
  searchQuery : string;
  weatherData : option NextResponse.body;   (* the parsed body, or [null] *)
  isLoading : bool;
  error : string;
  units : string
}.
End State.

Definition setWeatherData (v : option NextResponse.body) (st : State.t) : State.t :=
  {| State.searchQuery := State.searchQuery st; State.weatherData := v;
     State.isLoading := State.isLoading st; State.error := State.error st;
     State.units := State.units st |}.

Definition setIsLoading (v : bool) (st : State.t) : State.t :=
  {| State.searchQuery := State.searchQuery st;
     State.weatherData := State.weatherData st;
     State.isLoading := v; State.error := State.error st;
     State.units := State.units st |}.

Definition setError (v : string) (st : State.t) : State.t :=
  {| State.searchQuery := State.searchQuery st;
     State.weatherData := State.weatherData st;
     State.isLoading := State.isLoading st; State.error := v;
     State.units := State.units st |}.

Definition setUnits (v : string) (st : State.t) : State.t :=
  {| State.searchQuery := State.searchQuery st;
     State.weatherData := State.weatherData st;
     State.isLoading := State.isLoading st; State.error := State.error st;
     State.units := v |}.

(** The state of the first render. *)
Definition initial : State.t :=
  {| State.searchQuery := ""; State.weatherData := None;
     State.isLoading := false; State.error := ""; State.units := "imperial" |}.

(** [data.error] of a parsed body: [undefined] for a record. *)
Definition data_error (data : NextResponse.body) : option string :=
  match data with
  | NextResponse.Error msg => Some msg
  | NextResponse.Data _ => None
  end.

Definition quote : string := String (ascii_of_nat 34) EmptyString.

(** The address both handlers fetch. *)
Definition apiUrl (searchQuery units : string) : string :=
  "/api/weather?city=" ++ encodeURIComponent (String_trim searchQuery)
    ++ "&units=" ++ units.

Local Open Scope js_scope.

(** [handleSearch]: the state once the handler and its promises have
    settled. *)
Definition handleSearch (api : server NextResponse.body) (st : State.t)
  : M State.t :=
  if negb (truthy (String_trim (State.searchQuery st))) then ret st
  else
    let st := setError "" (setIsLoading true st) in
    st <- try_catch
            (response <- fetch api (apiUrl (State.searchQuery st) (State.units st)) ;;
             data <- Response_json response ;;
             if negb (Response.ok response) then
               let st :=
                 if (Response.status response =? 401)%N then
                   setError "API authentication failed. Please check that your OpenWeatherMap API key is valid and activated." st
                 else if (Response.status response =? 404)%N then
                   setError ("City " ++ quote ++ State.searchQuery st ++ quote
                               ++ " not found. Please check the spelling and try again.") st
                 else if (Response.status response =? 429)%N then
                   setError "Too many requests. Please wait a moment and try again." st
                 else
                   setError (or_string (data_error data) "Failed to fetch weather data") st in
               ret (setWeatherData None st)
             else
               ret (setError "" (setWeatherData (Some data) st)))
            (fun err =>
               console error "Weather fetch error:" err ;;
               ret (setWeatherData None
                      (setError "Network error. Please check your internet connection and try again." st))) ;;
    ret (setIsLoading false st).

(** [toggleUnits]: likewise, the state once the promise chain has
    settled. *)
Definition toggleUnits (api : server NextResponse.body) (st : State.t)
  : M State.t :=
  let newUnits := if State.units st =? "imperial" then "metric" else "imperial" in
  let st' := setUnits newUnits st in
  match State.weatherData st with
  | Some _ =>
      if truthy (State.searchQuery st) then
        let st' := setIsLoading true st' in
        st' <- try_catch
                 (response <- fetch api (apiUrl (State.searchQuery st) newUnits) ;;
                  data <- Response_json response ;;
                  match data_error data with
                  | Some msg =>
                      if truthy msg then ret (setError msg st')
                      else ret (setWeatherData (Some data) st')
                  | None => ret (setWeatherData (Some data) st')
                  end)
                 (fun err =>
                    console error "Unit conversion error:" err ;;
                    ret (setError "Failed to convert units" st')) ;;
        ret (setIsLoading false st')
      else ret st'
  | None => ret st'
  end.

(** The condition under which the page shows the key set-up
    instructions. *)
Definition showsSetupSteps (error : string) : bool :=
  includes "API key" error || includes "authentication" error.

(** ** What the page renders *)

(** The plain error card:
    [error && !error.includes("API key") && !error.includes("authentication")]. *)
Definition showsErrorCard (error : string) : bool :=
  truthy error && negb (includes "API key" error)
  && negb (includes "authentication" error).

(** The weather display: [weatherData && ...]. *)
Definition showsWeather (st : State.t) : bool :=
  match State.weatherData st with
  | Some _ => true
  | None => false
  end.

(** The welcome card: [!weatherData && !error]. *)
Definition showsWelcome (st : State.t) : bool :=
  negb (showsWeather st) && negb (truthy (State.error st)).

End Client.

(** ** Sample pages *)

Module PageSample.

(** A provider that cannot be reached. *)
Definition unreachable : upstream :=
  {| weather_api := fun _ => Thrown "TypeError: fetch failed";
     forecast_api := fun _ => Thrown "TypeError: fetch failed";
     uvi_api := fun _ => Thrown "TypeError: fetch failed" |}.

(** An endpoint that cannot be reached. *)
Definition offline : server NextResponse.body :=
  fun _ => Thrown "TypeError: Failed to fetch".

(** The first render, with a city typed in. *)
Definition searching : Client.State.t :=
  Client.setError "" {| Client.State.searchQuery := " Paris ";
                        Client.State.weatherData := None;
                        Client.State.isLoading := false;
                        Client.State.error := "";
                        Client.State.units := "imperial" |}.

(** A metric record on the page. *)
Definition showing : Client.State.t :=
  {| Client.State.searchQuery := "Paris";
     Client.State.weatherData := Some (NextResponse.Data Sample.metric_record);
     Client.State.isLoading := false;
     Client.State.error := "";
     Client.State.units := "metric" |}.

(** The same page after the search box was overwritten with two spaces. *)
Definition blank_box : Client.State.t :=
  {| Client.State.searchQuery := "  ";
     Client.State.weatherData := Some (NextResponse.Data Sample.metric_record);
     Client.State.isLoading := false;
     Client.State.error := "";
     Client.State.units := "metric" |}.

End PageSample.

(** * Properties *)

(** ** Rounding *)

Lemma Math_round_inject_Z (z : Z) : Math_round (inject_Z z) = z.
Proof.
  unfold Math_round, Qfloor, Qplus, inject_Z; simpl.
  symmetry; apply Z.div_unique with (r := 1%Z); lia.
Qed.

Lemma Math_round_comp (x y : Q) : x == y -> Math_round x = Math_round y.
Proof.
  intros E; unfold Math_round.
  apply Qfloor_comp. rewrite E. reflexivity.
Qed.

Lemma or_number_present (v : Q) : or_number (Some v) 0 == v.
Proof.
  unfold or_number.
  destruct (Qeq_bool v 0) eqn:E.
  - apply Qeq_bool_eq in E. symmetry. exact E.
  - reflexivity.
Qed.

Lemma or_number_nonzero (v d : Q) : ~ v == 0 -> or_number (Some v) d = v.
Proof.
  intros N; unfold or_number.
  destruct (Qeq_bool v 0) eqn:E; [| reflexivity].
  apply Qeq_bool_eq in E. contradiction.
Qed.

Section Properties.

Variable toLowerCase : string -> string.
Variable Number_toString : Q -> string.

Local Open Scope js_scope.

Local Abbreviation handler := (GET toLowerCase Number_toString).
Local Abbreviation record := (transformedData toLowerCase).
Local Abbreviation uv_branch := (get_uvIndex Number_toString).

(** ** The two best-effort branches *)



Lemma get_hourlyForecast_returns net url units :
  exists t hf, get_hourlyForecast net url units = (Fetch url :: t, Returned hf).
Proof.
  unfold get_hourlyForecast, fetch, Response_json.
  destruct (forecast_api net url) as [r | e]; cbn.
  - destruct (Response.ok r).
    + destruct (Response.json r); do 2 eexists; reflexivity.
    + do 2 eexists; reflexivity.
  - do 2 eexists; reflexivity.
Qed.


Lemma get_uvIndex_returns net key w :
  exists t uv, uv_branch net key w
               = (Fetch (uvUrl Number_toString key w) :: t, Returned uv).
Proof.
  unfold get_uvIndex, fetch, Response_json.
  destruct (uvi_api net _) as [r | e]; cbn.
  - destruct (Response.ok r).
    + destruct (Response.json r); do 2 eexists; reflexivity.
    + do 2 eexists; reflexivity.
  - do 2 eexists; reflexivity.
Qed.

(** ** The guards *)

Lemma length_32_truthy (k : string) :
  Nat.eqb (String_length k) 32 = true -> truthy k = true.
Proof. destruct k; [discriminate | reflexivity]. Qed.

Lemma GET_guarded key net city u :
  truthy city = true ->
  Nat.eqb (String_length key) 32 = true ->
  handler (Some key) net {| param_city := Some city; param_units := u |}
  = try_catch (aggregate toLowerCase Number_toString net city key
                         (or_string u "imperial"))
              fallback.
Proof.
  intros Hc Hk. unfold GET; cbn [param_city param_units].
  rewrite Hc, (length_32_truthy _ Hk), Hk. reflexivity.
Qed.

(** ** The successful path *)

Lemma aggregate_success net city key units w tf hf tu uv :
  current_conditions net city key units = Some w ->
  get_hourlyForecast net (forecastUrl city key units) units = (tf, Returned hf) ->
  uv_branch net key w = (tu, Returned uv) ->
  aggregate toLowerCase Number_toString net city key units
  = ((preamble city key units ++ tf ++ tu)%list,
     Returned {| NextResponse.status := 200;
                 NextResponse.payload := NextResponse.Data (record units w uv hf) |}).
Proof.
  unfold current_conditions, aggregate, fetch, Response_json, console,
    NextResponse_json.
  destruct (weather_api net _) as [r | e]; [| discriminate].
  destruct (Response.ok r) eqn:Hok; [| discriminate].
  destruct (Response.json r) as [w' | e] eqn:Hj; [| discriminate].
  intros [= ->] Hf Hu.
  cbn [bind negb]. rewrite Hok, Hj. cbn [bind negb]. rewrite Hf, Hu.
  cbn [bind ret app]. rewrite app_nil_r. reflexivity.
Qed.

Lemma GET_success key net city u w :
  truthy city = true ->
  Nat.eqb (String_length key) 32 = true ->
  current_conditions net city key (or_string u "imperial") = Some w ->
  exists tf hf tu uv,
    get_hourlyForecast net (forecastUrl city key (or_string u "imperial"))
                       (or_string u "imperial")
    = (Fetch (forecastUrl city key (or_string u "imperial")) :: tf, Returned hf)
    /\ uv_branch net key w
       = (Fetch (uvUrl Number_toString key w) :: tu, Returned uv)
    /\ handler (Some key) net {| param_city := Some city; param_units := u |}
       = ((preamble city key (or_string u "imperial")
             ++ (Fetch (forecastUrl city key (or_string u "imperial")) :: tf)
             ++ Fetch (uvUrl Number_toString key w) :: tu)%list,
          Returned {| NextResponse.status := 200;
                      NextResponse.payload :=
                        NextResponse.Data
                          (record (or_string u "imperial") w uv hf) |}).
Proof.
  intros Hc Hk Hw.
  destruct (get_hourlyForecast_returns net
              (forecastUrl city key (or_string u "imperial"))
              (or_string u "imperial")) as (tf & hf & Hf).
  destruct (get_uvIndex_returns net key w) as (tu & uv & Hu).
  exists tf, hf, tu, uv. repeat split; trivial.
  rewrite (GET_guarded _ _ _ _ Hc Hk).
  rewrite (aggregate_success _ _ _ _ _ _ _ _ _ Hw Hf Hu).
  reflexivity.
Qed.

(** ** The failing paths of the mandatory call *)

Lemma accepts_no_special (s : N) :
  NextResponse.accepts s = false ->
  (s =? 401)%N = false /\ (s =? 404)%N = false /\ (s =? 429)%N = false.
Proof.
  intros H. repeat split.
  - destruct (N.eqb_spec s 401) as [-> | _]; [discriminate H | reflexivity].
  - destruct (N.eqb_spec s 404) as [-> | _]; [discriminate H | reflexivity].
  - destruct (N.eqb_spec s 429) as [-> | _]; [discriminate H | reflexivity].
Qed.

(** The error reply for a status the framework accepts. *)
Lemma upstream_error_accepted (s : N) :
  NextResponse.accepts s = true ->
  exists msg,
    upstream_error s
    = ([], Returned {| NextResponse.status := s;
                       NextResponse.payload := NextResponse.Error msg |})
    /\ (s = 401%N ->
        msg = "Invalid API key. Please check your OpenWeatherMap API key and ensure it's activated.")
    /\ (s = 404%N ->
        msg = "City not found. Please check the spelling and try again.")
    /\ (s = 429%N ->
        msg = "API rate limit exceeded. Please try again later.")
    /\ (s <> 401%N -> s <> 404%N -> s <> 429%N ->
        msg = "Weather service error (" ++ status_toString s
                ++ "). Please try again later.").
Proof.
  intros Ha. unfold upstream_error, NextResponse_json.
  destruct (N.eqb_spec s 401) as [-> | N1];
    [| destruct (N.eqb_spec s 404) as [-> | N2];
       [| destruct (N.eqb_spec s 429) as [-> | N3]]].
  - eexists. split; [reflexivity |]. repeat split; trivial; intros; congruence.
  - eexists. split; [reflexivity |]. repeat split; trivial; intros; congruence.
  - eexists. split; [reflexivity |]. repeat split; trivial; intros; congruence.
  - eexists. split.
    + unfold NextResponse.json. unfold NextResponse.accepts in Ha.
      apply andb_true_iff in Ha as [Hrange Hnull].
      rewrite Hrange. apply negb_true_iff in Hnull. rewrite Hnull. reflexivity.
    + repeat split; trivial; intros; congruence.
Qed.

(** For any other status the constructor of the reply throws. *)
Lemma upstream_error_rejected (s : N) :
  NextResponse.accepts s = false ->
  exists e, upstream_error s = ([], Thrown e).
Proof.
  intros Ha. destruct (accepts_no_special s Ha) as (E1 & E2 & E3).
  unfold upstream_error, NextResponse_json. rewrite E1, E2, E3.
  unfold NextResponse.json. unfold NextResponse.accepts in Ha.
  destruct ((200 <=? s)%N && (s <=? 599)%N); cbn [negb andb] in *;
    [| eexists; reflexivity].
  apply negb_false_iff in Ha. rewrite Ha. eexists; reflexivity.
Qed.


(** The run of a request whose current-conditions call answers a status
    that is not a success, with a body that can be read and a status
    the framework accepts. *)
Lemma aggregate_refused net city key units wr errorText :
  weather_api net (weatherUrl city key units) = Returned wr ->
  Response.ok wr = false ->
  Response.text wr = Returned errorText ->
  NextResponse.accepts (Response.status wr) = true ->
  exists msg,
    try_catch (aggregate toLowerCase Number_toString net city key units) fallback
    = ([ Console log "Fetching weather from:"
                 (replace key "[API_KEY]" (weatherUrl city key units));
         Fetch (weatherUrl city key units);
         Console error "Weather API error response:" errorText ],
       Returned {| NextResponse.status := Response.status wr;
                   NextResponse.payload := NextResponse.Error msg |})
    /\ upstream_error (Response.status wr)
       = ([], Returned {| NextResponse.status := Response.status wr;
                          NextResponse.payload := NextResponse.Error msg |}).
Proof.
  intros Hr Hok Ht Ha.
  destruct (upstream_error_accepted _ Ha) as (msg & Hu & _).
  exists msg. split; [| exact Hu].
  unfold aggregate, fetch, console, Response_text.
  rewrite Hr. cbn [bind negb]. rewrite Hok, Ht. cbn [bind negb].
  rewrite Hu. reflexivity.
Qed.

(** The run of a request whose current conditions are not obtained: one
    line logged, one address fetched, then console errors only, and a
    reply with an error message and a status that is not a success. *)
Lemma aggregate_failure net city key units :
  current_conditions net city key units = None ->
  exists errs s msg,
    try_catch (aggregate toLowerCase Number_toString net city key units) fallback
    = (Console log "Fetching weather from:"
                   (replace key "[API_KEY]" (weatherUrl city key units))
         :: Fetch (weatherUrl city key units) :: errs,
       Returned {| NextResponse.status := s;
                   NextResponse.payload := NextResponse.Error msg |})
    /\ fetches errs = [] /\ logged errs = []
    /\ (200 <=? s)%N && (s <=? 299)%N = false.
Proof.
  unfold current_conditions.
  destruct (weather_api net _) as [r | e] eqn:Hr.
  - destruct (Response.ok r) eqn:Hok.
    + destruct (Response.json r) as [w | e] eqn:Hj; [discriminate |].
      intros _. unfold aggregate, fetch, console, Response_json.
      rewrite Hr. cbn [bind negb]. rewrite Hok, Hj.
      do 3 eexists; split; [reflexivity | repeat split].
    + intros _. destruct (Response.text r) as [txt | e] eqn:Ht.
      * destruct (NextResponse.accepts (Response.status r)) eqn:Ha.
        -- destruct (aggregate_refused _ _ _ _ _ _ Hr Hok Ht Ha) as (msg & -> & _).
           do 3 eexists; split; [reflexivity |]. repeat split. exact Hok.
        -- destruct (upstream_error_rejected _ Ha) as (e & He).
           unfold aggregate, fetch, console, Response_text.
           rewrite Hr. cbn [bind negb]. rewrite Hok, Ht. cbn [bind negb].
           rewrite He.
           do 3 eexists; split; [reflexivity | repeat split].
      * unfold aggregate, fetch, console, Response_text.
        rewrite Hr. cbn [bind negb]. rewrite Hok, Ht.
        do 3 eexists; split; [reflexivity | repeat split].
  - intros _. unfold aggregate, fetch, console. rewrite Hr.
    do 3 eexists; split; [reflexivity | repeat split].
Qed.

Lemma aggregate_without_conditions net city key units :
  current_conditions net city key units = None ->
  exists t s msg,
    try_catch (aggregate toLowerCase Number_toString net city key units) fallback
    = (t, Returned {| NextResponse.status := s;
                      NextResponse.payload := NextResponse.Error msg |}).
Proof.
  intros H. destruct (aggregate_failure _ _ _ _ H) as (errs & s & msg & E & _).
  rewrite E. do 3 eexists; reflexivity.
Qed.

(** A reply that carries a record comes from a request with a city, a
    well-formed credential and a current-conditions call that
    succeeded; the record is built from that call's payload. *)
Lemma GET_data_inv key net request t resp r :
  handler key net request = (t, Returned resp) ->
  NextResponse.payload resp = NextResponse.Data r ->
  exists city k w uv hf,
    param_city request = Some city /\ truthy city = true
    /\ key = Some k /\ Nat.eqb (String_length k) 32 = true
    /\ current_conditions net city k (units_of request) = Some w
    /\ NextResponse.status resp = 200%N
    /\ r = record (units_of request) w uv hf.
Proof.
  destruct request as [c u]. unfold units_of; cbn [param_city param_units].
  destruct c as [city |]; [| intros [= <- <-]; discriminate].
  destruct (truthy city) eqn:Hc;
    [| unfold GET; cbn [param_city]; rewrite Hc; intros [= <- <-]; discriminate].
  destruct key as [k |];
    [| unfold GET; cbn [param_city]; rewrite Hc; intros [= <- <-]; discriminate].
  destruct (Nat.eqb (String_length k) 32) eqn:Hk.
  - destruct (current_conditions net city k (or_string u "imperial"))
      as [w |] eqn:Hw.
    + destruct (GET_success _ _ _ u _ Hc Hk Hw) as (tf & hf & tu & uv & _ & _ & ->).
      intros [= <- <-] [= <-].
      exists city, k, w, uv, hf. repeat split; trivial.
    + rewrite (GET_guarded _ _ _ _ Hc Hk).
      destruct (aggregate_without_conditions _ _ _ _ Hw) as (t' & s & msg & ->).
      intros [= <- <-]; discriminate.
  - unfold GET; cbn [param_city]; rewrite Hc, Hk.
    destruct (truthy k); intros [= <- <-]; discriminate.
Qed.

(** ** Unit conversions of the top-level record *)

Lemma record_imperial w uv hf :
  windSpeed (record "imperial" w uv hf)
  = Math_round (or_number (CurrentPayload.wind_speed w) 0)
  /\ windUnit (record "imperial" w uv hf) = "mph"
  /\ visibility (record "imperial" w uv hf)
     = Math_round (or_number (CurrentPayload.visibility w) 10000 / 1609.34)
  /\ visibilityUnit (record "imperial" w uv hf) = "mi".
Proof. repeat split. Qed.

Lemma record_not_imperial u w uv hf :
  (u =? "imperial") = false ->
  windSpeed (record u w uv hf)
  = Math_round (or_number (CurrentPayload.wind_speed w) 0 * 3.6)
  /\ windUnit (record u w uv hf) = "km/h"
  /\ visibility (record u w uv hf)
     = Math_round (or_number (CurrentPayload.visibility w) 10000 / 1000)
  /\ visibilityUnit (record u w uv hf) = "km"
  /\ tempUnit (record u w uv hf) = degree ++ "C".
Proof.
  intros E. unfold transformedData. rewrite E.
  cbn [windSpeed windUnit visibility visibilityUnit tempUnit].
  rewrite Math_round_inject_Z. repeat split.
Qed.


(** Where the upstream visibility is present and not zero, the reported
    visibility is that distance divided by 1609.34 (miles) or by 1000
    (kilometres), rounded. *)
Lemma visibility_conversion_nonzero key net request t resp r :
  handler key net request = (t, Returned resp) ->
  NextResponse.payload resp = NextResponse.Data r ->
  exists city k w,
    param_city request = Some city /\ key = Some k
    /\ current_conditions net city k (units_of request) = Some w
    /\ forall v, CurrentPayload.visibility w = Some v -> ~ v == 0 ->
         (units_of request = "imperial" ->
            visibility r = Math_round (v / 1609.34) /\ visibilityUnit r = "mi")
         /\ (units_of request = "metric" ->
               visibility r = Math_round (v / 1000) /\ visibilityUnit r = "km").
Proof.
  intros Hrun Hdata.
  destruct (GET_data_inv _ _ _ _ _ _ Hrun Hdata)
    as (city & k & w & uv & hf & Hc & _ & Hk & _ & Hw & _ & ->).
  exists city, k, w.
  pose proof (record_imperial w uv hf) as (_ & _ & Hi & Hiu).
  pose proof (record_not_imperial "metric" w uv hf eq_refl) as (_ & _ & Hm & Hmu & _).
  repeat (split; [assumption |]).
  intros v Hv Hnz. rewrite Hv, (or_number_nonzero _ _ Hnz) in Hi, Hm.
  split; intros ->; split; trivial.
Qed.

(** C9: when the current-conditions payload has no visibility field, the
    handler converts 10000 metres instead: the response reports 6 "mi"
    under imperial units and 10 "km" under metric units. *)
Theorem visibility_default_when_omitted key net request t resp r :
  handler key net request = (t, Returned resp) ->
  NextResponse.payload resp = NextResponse.Data r ->
  exists city k w,
    param_city request = Some city /\ key = Some k
    /\ current_conditions net city k (units_of request) = Some w
    /\ (CurrentPayload.visibility w = None ->
          (units_of request = "imperial" ->
             visibility r = Math_round (10000 / 1609.34)
             /\ visibility r = 6%Z /\ visibilityUnit r = "mi")
          /\ (units_of request = "metric" ->
                visibility r = Math_round (10000 / 1000)
                /\ visibility r = 10%Z /\ visibilityUnit r = "km")).
Proof.
  intros Hrun Hdata.
  destruct (GET_data_inv _ _ _ _ _ _ Hrun Hdata)
    as (city & k & w & uv & hf & Hc & _ & Hk & _ & Hw & _ & ->).
  exists city, k, w.
  pose proof (record_imperial w uv hf) as (_ & _ & Hi & Hiu).
  pose proof (record_not_imperial "metric" w uv hf eq_refl) as (_ & _ & Hm & Hmu & _).
  repeat (split; [assumption |]).
  intros Hv. rewrite Hv in Hi, Hm.
  split; intros ->; repeat split; trivial.
Qed.

(** ** Containment of the best-effort branches *)



(** ** The forecast section *)



(** ** Failure of the mandatory call *)


(** ** The guards *)

(** C5 (as the handler does it): a request without a city, or with an
    empty one, is answered 400 with an error message before the
    credential is looked at and without any call to the provider; the
    parameter is not trimmed. *)
Theorem missing_city_rejected key net u :
  handler key net {| param_city := None; param_units := u |}
  = ([], Returned {| NextResponse.status := 400;
                     NextResponse.payload :=
                       NextResponse.Error "City parameter is required" |})
  /\ handler key net {| param_city := Some ""; param_units := u |}
     = ([], Returned {| NextResponse.status := 400;
                        NextResponse.payload :=
                          NextResponse.Error "City parameter is required" |}).
Proof. split; reflexivity. Qed.

(** C6 (as the handler does it): for a request that names a city, a
    credential that is absent or not 32 characters long is answered 500
    with an error message, and nothing is fetched or logged. *)
Theorem credential_checked_after_city key net city u :
  truthy city = true ->
  credential_valid key = false ->
  exists msg,
    handler key net {| param_city := Some city; param_units := u |}
    = ([], Returned {| NextResponse.status := 500;
                       NextResponse.payload := NextResponse.Error msg |}).
Proof.
  intros Hc Hk. unfold GET; cbn [param_city]. rewrite Hc.
  destruct key as [k |]; [| eexists; reflexivity].
  cbn in Hk. rewrite Hk.
  destruct (truthy k); eexists; reflexivity.
Qed.

(** ** The units parameter *)


End Properties.

(** * The properties on sample requests *)

Module Runs.

Import Sample.

(** ** Worked conversions *)

Example wind_10_metric :
  windSpeed (transformedData toLowerCase "metric" (paris None (Some 10)) 0 []) = 36%Z
  /\ windSpeed (transformedData toLowerCase "imperial" (paris None (Some 10)) 0 []) = 10%Z.
Proof. split; reflexivity. Qed.

Example visibility_10000 :
  visibility (transformedData toLowerCase "imperial" (paris (Some 10000) None) 0 []) = 6%Z
  /\ visibility (transformedData toLowerCase "metric" (paris (Some 10000) None) 0 []) = 10%Z.
Proof. split; reflexivity. Qed.

Example Math_round_half_up :
  Math_round 2.5 = 3%Z /\ Math_round (-2.5) = (-2)%Z /\ Math_round 2.4 = 2%Z.
Proof. repeat split. Qed.

Example precipitation_not_rounded :
  HourlyForecast.precipitation
    (forecast_item "metric" (slot 1 None 0.125%float)) = 12.5%float
  /\ HourlyForecast.precipitation
       (forecast_item "metric" (slot 1 None 0.07%float)) = 7.000000000000001%float
  /\ HourlyForecast.precipitation
       (forecast_item "metric" (slot 1 None 0.145%float)) = 14.499999999999998%float.
Proof. repeat split. Qed.

Example encodeURIComponent_sample :
  encodeURIComponent "New York, NY" = "New%20York%2C%20NY".
Proof. reflexivity. Qed.

(** ** Successful requests *)


Lemma visibility_default_when_omitted_witness :
  default_visibility_run
  = (fst default_visibility_run,
     Returned {| NextResponse.status := 200;
                 NextResponse.payload := NextResponse.Data default_visibility_record |})
  /\ visibility default_visibility_record = 6%Z
  /\ visibilityUnit default_visibility_record = "mi".
Proof.
  split; [reflexivity |].
  destruct (visibility_default_when_omitted toLowerCase Number_toString
              (Some key) (degraded (paris None (Some 4)))
              (request (Some "Paris") None)
              (fst default_visibility_run)
              {| NextResponse.status := 200;
                 NextResponse.payload := NextResponse.Data default_visibility_record |}
              default_visibility_record eq_refl eq_refl)
    as (city & k & w & Hc & Hk & Hw & H).
  injection Hc as <-. injection Hk as <-. injection Hw as <-.
  destruct (H eq_refl) as (Hi & _).
  destruct (Hi eq_refl) as (_ & H6 & Hmi).
  split; assumption.
Defined.



(** ** Refused requests *)


Lemma credential_checked_after_city_witness :
  credential_valid (Some "too-short") = false
  /\ exists msg,
      run (Some "too-short") (healthy (paris None None) [] None)
          (request (Some "Paris") None)
      = ([], Returned {| NextResponse.status := 500;
                         NextResponse.payload := NextResponse.Error msg |}).
Proof.
  split; [reflexivity |].
  apply (credential_checked_after_city toLowerCase Number_toString
           (Some "too-short") (healthy (paris None None) [] None) "Paris" None);
    reflexivity.
Defined.


(** C5, refuted as worded: a city made of one space is empty after
    trimming, yet the handler asks the provider about it and relays the
    provider's 404. *)
Lemma whitespace_city_reaches_provider :
  trim " " = ""
  /\ exists t resp,
      run (Some key) (refusing 404) (request (Some " ") None) = (t, Returned resp)
      /\ NextResponse.status resp = 404%N
      /\ NextResponse.status resp <> 400%N
      /\ fetches t
         = ["https://api.openweathermap.org/data/2.5/weather?q=%20&appid=0123456789abcdef0123456789abcdef&units=imperial"].
Proof.
  split; [reflexivity |].
  eexists; eexists. split; [reflexivity |].
  split; [reflexivity |]. split; [discriminate | reflexivity].
Qed.


(** C6, refuted as worded: with no credential configured and no city in
    the request, the reply is 400, not 500. *)
Lemma missing_city_precedes_credential_check :
  credential_valid None = false
  /\ exists resp,
      run None (healthy (paris None None) [] None) (request None (Some "metric"))
      = ([], Returned resp)
      /\ NextResponse.status resp = 400%N
      /\ NextResponse.status resp <> 500%N.
Proof.
  split; [reflexivity |].
  eexists. split; [reflexivity |]. split; [reflexivity | discriminate].
Qed.

(** C2 at an upstream visibility of 0 metres: the handler takes the zero
    for a missing value and reports the default distance, 10 km (6 mi),
    where the conversion of 0 is 0. *)
Theorem zero_visibility_reported_as_default :
  (exists t r,
     run (Some key) (healthy (paris (Some 0) (Some 10)) [] None)
         (request (Some "Paris") (Some "metric"))
     = (t, Returned {| NextResponse.status := 200;
                       NextResponse.payload := NextResponse.Data r |})
     /\ visibility r = 10%Z /\ visibilityUnit r = "km"
     /\ visibility r <> Math_round (0 / 1000))
  /\ (exists t r,
        run (Some key) (healthy (paris (Some 0) (Some 10)) [] None)
            (request (Some "Paris") None)
        = (t, Returned {| NextResponse.status := 200;
                          NextResponse.payload := NextResponse.Data r |})
        /\ visibility r = 6%Z /\ visibilityUnit r = "mi"
        /\ visibility r <> Math_round (0 / 1609.34)).
Proof.
  split; eexists; eexists; (split; [reflexivity |]);
    (split; [reflexivity |]); (split; [reflexivity | discriminate]).
Qed.

(** C8 at a city equal to the credential: [replace] rewrites the first
    occurrence only, which is the city, and the logged address keeps the
    credential after [appid=].  A units parameter equal to the
    credential is logged as it is, too. *)
Theorem credential_logged_when_request_repeats_it :
  (let t := fst (run (Some key) (degraded (paris None None))
                     (request (Some key) None)) in
   nth 0 (messages t) ""
   = "Fetching weather from: https://api.openweathermap.org/data/2.5/weather?q=[API_KEY]&appid=0123456789abcdef0123456789abcdef&units=imperial"
   /\ includes key (nth 0 (messages t) "") = true)
  /\ (let t := fst (run (Some key) (degraded (paris None None))
                        (request (Some "Paris") (Some key))) in
      nth 0 (messages t) ""
      = "Fetching weather from: https://api.openweathermap.org/data/2.5/weather?q=Paris&appid=[API_KEY]&units=0123456789abcdef0123456789abcdef"
      /\ includes key (nth 0 (messages t) "") = true).
Proof. repeat split. Qed.

(** On an ordinary request no message of the trace contains the
    credential. *)
Example credential_redacted_sample :
  existsb (includes key) (messages (fst metric_run)) = false.
Proof. reflexivity. Qed.

End Runs.

(** * Further properties of the handler *)

(** ** Strings *)

Lemma prefix_over_separator (pat a b : string) (c : ascii) :
  occurs c pat = false ->
  prefix pat (a ++ String c b) = prefix pat a.
Proof.
  revert a. induction pat as [| p pat IH]; intros a Hc.
  - destruct a; reflexivity.
  - cbn in Hc. apply orb_false_iff in Hc as [Hp Hpat].
    destruct a as [| x a]; cbn.
    + destruct (ascii_dec p c) as [-> | _]; [| reflexivity].
      rewrite Ascii.eqb_refl in Hp. discriminate.
    + destruct (ascii_dec p x); [apply IH; exact Hpat | reflexivity].
Qed.

Lemma includes_cons (pat s : string) (x : ascii) :
  includes pat (String x s)
  = if prefix pat (String x s) then true else includes pat s.
Proof. reflexivity. Qed.

Lemma replace_cons (pat rep s : string) (x : ascii) :
  replace pat rep (String x s)
  = if prefix pat (String x s) then rep ++ drop (length pat) (String x s)
    else String x (replace pat rep s).
Proof. reflexivity. Qed.

Lemma includes_over_separator (pat a b : string) (c : ascii) :
  occurs c pat = false ->
  includes pat (a ++ String c b) = includes pat a || includes pat b.
Proof.
  intros Hc. induction a as [| x a IH].
  - pose proof (prefix_over_separator pat "" b c Hc) as H.
    cbn [append] in *. rewrite includes_cons, H.
    destruct pat; reflexivity.
  - pose proof (prefix_over_separator pat (String x a) b c Hc) as H.
    cbn [append] in *. rewrite !includes_cons, H, IH.
    destruct (prefix pat (String x a)); reflexivity.
Qed.

Lemma prefix_too_long (pat s : string) :
  (length s < length pat)%nat -> prefix pat s = false.
Proof.
  revert s. induction pat as [| p pat IH]; intros s H; [cbn in H; lia |].
  destruct s as [| x s]; [reflexivity |]. cbn in *.
  destruct (ascii_dec p x); [apply IH; lia | reflexivity].
Qed.

Lemma includes_nil (pat : string) : includes pat "" = prefix pat "".
Proof. destruct pat; reflexivity. Qed.

Lemma includes_too_long (pat s : string) :
  (length s < length pat)%nat -> includes pat s = false.
Proof.
  induction s as [| x s IH]; intros H.
  - rewrite includes_nil. apply prefix_too_long, H.
  - rewrite includes_cons, (prefix_too_long _ _ H).
    apply IH. cbn in H. lia.
Qed.

Lemma includes_not_prefix (pat s : string) :
  includes pat s = false -> prefix pat s = false.
Proof.
  destruct s; [rewrite includes_nil; trivial |].
  rewrite includes_cons. destruct (prefix pat _); congruence.
Qed.

Lemma replace_over_separator (pat rep a rest : string) (c : ascii) :
  occurs c pat = false ->
  includes pat a = false ->
  replace pat rep (a ++ String c rest) = a ++ String c (replace pat rep rest).
Proof.
  intros Hc. induction a as [| x a IH]; intros Ha.
  - pose proof (prefix_over_separator pat "" rest c Hc) as H.
    cbn [append] in *. rewrite replace_cons, H, (includes_not_prefix _ _ Ha).
    reflexivity.
  - pose proof (prefix_over_separator pat (String x a) rest c Hc) as H.
    cbn [append] in *. rewrite replace_cons, H, (includes_not_prefix _ _ Ha).
    rewrite IH; [reflexivity |].
    rewrite includes_cons in Ha. destruct (prefix pat (String x a)); congruence.
Qed.

Lemma prefix_self (pat post : string) : prefix pat (pat ++ post) = true.
Proof.
  induction pat as [| p pat IH]; [destruct post; reflexivity |].
  cbn. destruct (ascii_dec p p); [exact IH | congruence].
Qed.

Lemma drop_self (pat post : string) : drop (length pat) (pat ++ post) = post.
Proof. induction pat; [destruct post; reflexivity | exact IHpat]. Qed.

Lemma replace_at_head (pat rep post : string) :
  replace pat rep (pat ++ post) = rep ++ post.
Proof.
  destruct (pat ++ post) eqn:E; cbn [replace]; rewrite <- E;
    rewrite prefix_self, drop_self; reflexivity.
Qed.

Lemma unreserved_one_unit (c : ascii) : unreserved c = true -> code_units c = 1%nat.
Proof.
  destruct c as [[] [] [] [] [] [] [] []]; intros H;
    first [reflexivity | discriminate H].
Qed.

Lemma unreserved_length (s : string) :
  all_chars unreserved s = true -> String_length s = length s.
Proof.
  induction s as [| c s IH]; [reflexivity |]. cbn [all_chars].
  intros H. apply andb_true_iff in H as [Hc Hs].
  cbn [String_length length]. rewrite (unreserved_one_unit _ Hc), (IH Hs).
  reflexivity.
Qed.

Lemma unreserved_excludes (c : ascii) (s : string) :
  unreserved c = false -> all_chars unreserved s = true -> occurs c s = false.
Proof.
  intros Hc. induction s as [| x s IH]; [reflexivity |]. cbn.
  intros H. apply andb_true_iff in H as [Hx Hs].
  rewrite (IH Hs), orb_false_r.
  destruct (Ascii.eqb_spec c x) as [-> | _]; [congruence | reflexivity].
Qed.

(** An address of the provider with its query, cut at the separators. *)
Lemma query_cut (endpoint city key units : string) :
  endpoint ++ "=" ++ encodeURIComponent city ++ "&appid=" ++ key ++ "&units=" ++ units
  = endpoint ++ String "=" (encodeURIComponent city ++ String "&"
      ("appid" ++ String "=" (key ++ String "&" ("units" ++ String "=" units)))).
Proof. reflexivity. Qed.

Lemma redacted_query (endpoint city key units : string) :
  occurs "=" key = false ->
  occurs "&" key = false ->
  (9 < length key)%nat ->
  includes key endpoint = false ->
  includes key (encodeURIComponent city) = false ->
  includes key units = false ->
  replace key "[API_KEY]"
    (endpoint ++ "=" ++ encodeURIComponent city ++ "&appid=" ++ key
       ++ "&units=" ++ units)
  = endpoint ++ "=" ++ encodeURIComponent city ++ "&appid=[API_KEY]&units=" ++ units
  /\ includes key
       (endpoint ++ "=" ++ encodeURIComponent city ++ "&appid=[API_KEY]&units=" ++ units)
     = false.
Proof.
  intros Heq Hamp Hlen Hend Hcity Hunits.
  assert (Happid : includes key "appid" = false)
    by (apply includes_too_long; cbn; lia).
  assert (Hmark : includes key "[API_KEY]" = false)
    by (apply includes_too_long; cbn; lia).
  assert (Hword : includes key "units" = false)
    by (apply includes_too_long; cbn; lia).
  rewrite query_cut.
  rewrite (replace_over_separator _ _ _ _ _ Heq Hend).
  rewrite (replace_over_separator _ _ _ _ _ Hamp Hcity).
  rewrite (replace_over_separator _ _ _ _ _ Heq Happid).
  rewrite replace_at_head.
  change (endpoint ++ "=" ++ encodeURIComponent city
            ++ "&appid=[API_KEY]&units=" ++ units)
    with (endpoint ++ String "=" (encodeURIComponent city ++ String "&"
            ("appid" ++ String "=" ("[API_KEY]" ++ String "&"
               ("units" ++ String "=" units))))).
  split; [reflexivity |].
  rewrite (includes_over_separator _ _ _ _ Heq), Hend.
  rewrite (includes_over_separator _ _ _ _ Hamp), Hcity.
  rewrite (includes_over_separator _ _ _ _ Heq), Happid.
  rewrite (includes_over_separator _ _ _ _ Hamp), Hmark.
  rewrite (includes_over_separator _ _ _ _ Heq), Hword, Hunits.
  reflexivity.
Qed.

(** A text of 32 bytes without a slash is in neither endpoint address. *)
Lemma endpoints_exclude (key : string) :
  occurs "/" key = false ->
  length key = 32%nat ->
  includes key (OPENWEATHER_BASE_URL ++ "/weather?q") = false
  /\ includes key (OPENWEATHER_BASE_URL ++ "/forecast?q") = false.
Proof.
  intros Hs Hl.
  assert (short : forall s, (length s < 32)%nat -> includes key s = false)
    by (intros s H; apply includes_too_long; lia).
  change (OPENWEATHER_BASE_URL ++ "/weather?q")
    with ("https:" ++ String "/" ("" ++ String "/" ("api.openweathermap.org"
            ++ String "/" ("data" ++ String "/" ("2.5" ++ String "/" "weather?q"))))).
  change (OPENWEATHER_BASE_URL ++ "/forecast?q")
    with ("https:" ++ String "/" ("" ++ String "/" ("api.openweathermap.org"
            ++ String "/" ("data" ++ String "/" ("2.5" ++ String "/" "forecast?q"))))).
  rewrite !(includes_over_separator _ _ _ _ Hs).
  rewrite !short by (cbn; lia). split; reflexivity.
Qed.

Section Handler_facts.

Variable toLowerCase : string -> string.
Variable Number_toString : Q -> string.

Local Open Scope js_scope.

Local Abbreviation handler := (GET toLowerCase Number_toString).
Local Abbreviation record := (transformedData toLowerCase).
Local Abbreviation uv_branch := (get_uvIndex Number_toString).

(** [response.ok] of the reply, as a caller computes it. *)
Local Abbreviation ok_status s := ((200 <=? s)%N && (s <=? 299)%N).

(** ** Traces of the branches *)

Lemma get_hourlyForecast_trace net url units :
  exists t hf,
    get_hourlyForecast net url units = (Fetch url :: t, Returned hf)
    /\ fetches t = [] /\ logged t = [].
Proof.
  unfold get_hourlyForecast, fetch, Response_json.
  destruct (forecast_api net url) as [r | e]; cbn.
  - destruct (Response.ok r).
    + destruct (Response.json r); do 2 eexists; repeat split.
    + do 2 eexists; repeat split.
  - do 2 eexists; repeat split.
Qed.

Lemma get_uvIndex_trace net key w :
  exists t uv,
    uv_branch net key w = (Fetch (uvUrl Number_toString key w) :: t, Returned uv)
    /\ fetches t = [] /\ logged t = [].
Proof.
  unfold get_uvIndex, fetch, Response_json.
  destruct (uvi_api net _) as [r | e]; cbn.
  - destruct (Response.ok r).
    + destruct (Response.json r); do 2 eexists; repeat split.
    + do 2 eexists; repeat split.
  - do 2 eexists; repeat split.
Qed.

Lemma fetches_app (t1 t2 : list event) :
  fetches (t1 ++ t2) = (fetches t1 ++ fetches t2)%list.
Proof.
  induction t1 as [| [l a b | url] t1 IH]; cbn; [| | rewrite IH]; trivial.
Qed.

Lemma logged_app (t1 t2 : list event) :
  logged (t1 ++ t2) = (logged t1 ++ logged t2)%list.
Proof.
  induction t1 as [| [[] a b | url] t1 IH]; cbn; rewrite ?IH; trivial.
Qed.

(** The run of a request whose current conditions are obtained. *)
Lemma GET_success_trace key net city u w :
  truthy city = true ->
  Nat.eqb (String_length key) 32 = true ->
  current_conditions net city key (or_string u "imperial") = Some w ->
  exists t uv hf,
    handler (Some key) net {| param_city := Some city; param_units := u |}
    = (t, Returned {| NextResponse.status := 200;
                      NextResponse.payload :=
                        NextResponse.Data
                          (record (or_string u "imperial") w uv hf) |})
    /\ fetches t = [ weatherUrl city key (or_string u "imperial");
                    forecastUrl city key (or_string u "imperial");
                    uvUrl Number_toString key w ]
    /\ logged t = [ replace key "[API_KEY]" (weatherUrl city key (or_string u "imperial"));
                   replace key "[API_KEY]" (forecastUrl city key (or_string u "imperial")) ]
    /\ snd (get_hourlyForecast net (forecastUrl city key (or_string u "imperial"))
                               (or_string u "imperial")) = Returned hf
    /\ snd (uv_branch net key w) = Returned uv.
Proof.
  intros Hc Hk Hw.
  destruct (get_hourlyForecast_trace net
              (forecastUrl city key (or_string u "imperial"))
              (or_string u "imperial")) as (tf & hf & Hf & Hff & Hfl).
  destruct (get_uvIndex_trace net key w) as (tu & uv & Hu & Huf & Hul).
  exists (preamble city key (or_string u "imperial")
            ++ (Fetch (forecastUrl city key (or_string u "imperial")) :: tf)
            ++ Fetch (uvUrl Number_toString key w) :: tu)%list, uv, hf.
  split.
  - rewrite (GET_guarded _ _ _ _ _ _ Hc Hk).
    rewrite (aggregate_success _ _ _ _ _ _ _ _ _ _ _ Hw Hf Hu). reflexivity.
  - rewrite Hf, Hu. rewrite !fetches_app, !logged_app. cbn.
    rewrite ?fetches_app, ?logged_app. cbn. rewrite Hff, Huf, Hfl, Hul.
    repeat split.
Qed.

(** The run of a request whose current conditions are not obtained: one
    line logged, one address fetched, then console errors only. *)
Lemma GET_failure_trace key net city u :
  truthy city = true ->
  Nat.eqb (String_length key) 32 = true ->
  current_conditions net city key (or_string u "imperial") = None ->
  exists errs s msg,
    handler (Some key) net {| param_city := Some city; param_units := u |}
    = (Console log "Fetching weather from:"
                   (replace key "[API_KEY]" (weatherUrl city key (or_string u "imperial")))
         :: Fetch (weatherUrl city key (or_string u "imperial")) :: errs,
       Returned {| NextResponse.status := s;
                   NextResponse.payload := NextResponse.Error msg |})
    /\ fetches errs = [] /\ logged errs = []
    /\ ok_status s = false.
Proof.
  intros Hc Hk Hw. rewrite (GET_guarded _ _ _ _ _ _ Hc Hk).
  apply aggregate_failure, Hw.
Qed.

(** ** Every request is answered *)

(** X1: against a provider whose bodies, when they parse, follow its
    contract (the payload types above: name, sys, coord, main and
    weather[0] present), the handler answers every request, whatever the
    credential, the parameters, and the statuses and failures of the
    network: no exception escapes.  The reply carries a record exactly
    when its status is a success status, then the status is 200 and
    three addresses were fetched; a reply with an error message fetched
    at most one. *)
Theorem handler_always_replies key net request :
  exists t resp,
    handler key net request = (t, Returned resp)
    /\ ((exists r, NextResponse.payload resp = NextResponse.Data r)
        <-> ok_status (NextResponse.status resp) = true)
    /\ ((exists r, NextResponse.payload resp = NextResponse.Data r) ->
        NextResponse.status resp = 200%N /\ List.length (fetches t) = 3%nat)
    /\ ((exists msg, NextResponse.payload resp = NextResponse.Error msg) ->
        (List.length (fetches t) <= 1)%nat).
Proof.
  assert (refused : forall s msg,
             ok_status s = false ->
             forall t, (List.length (fetches t) <= 1)%nat ->
             exists t' resp,
               (t, Returned {| NextResponse.status := s;
                               NextResponse.payload := NextResponse.Error msg |})
               = (t', Returned resp)
               /\ ((exists r, NextResponse.payload resp = NextResponse.Data r)
                   <-> ok_status (NextResponse.status resp) = true)
               /\ ((exists r, NextResponse.payload resp = NextResponse.Data r) ->
                   NextResponse.status resp = 200%N
                   /\ List.length (fetches t') = 3%nat)
               /\ ((exists msg, NextResponse.payload resp = NextResponse.Error msg) ->
                   (List.length (fetches t') <= 1)%nat)).
  { intros s msg Hs t Ht. eexists; eexists. split; [reflexivity |].
    cbn [NextResponse.payload NextResponse.status]. rewrite Hs.
    split; [split |]; [| | split].
    - intros [r Hr]; discriminate.
    - discriminate.
    - intros [r Hr]; discriminate.
    - intros _. exact Ht. }
  destruct request as [c u].
  destruct c as [city |]; [| apply (refused 400%N); [reflexivity | cbn; lia]].
  destruct (truthy city) eqn:Hc;
    [| unfold GET; cbn [param_city]; rewrite Hc;
       apply (refused 400%N); [reflexivity | cbn; lia]].
  destruct key as [k |];
    [| unfold GET; cbn [param_city]; rewrite Hc;
       apply (refused 500%N); [reflexivity | cbn; lia]].
  destruct (Nat.eqb (String_length k) 32) eqn:Hk.
  - destruct (current_conditions net city k (or_string u "imperial"))
      as [w |] eqn:Hw.
    + destruct (GET_success_trace _ _ _ u _ Hc Hk Hw)
        as (t & uv & hf & -> & Hf & _).
      eexists; eexists. split; [reflexivity |].
      cbn [NextResponse.payload NextResponse.status NextResponse.json].
      rewrite Hf. repeat split; try reflexivity; eauto.
      intros [msg Hm]; discriminate.
    + destruct (GET_failure_trace _ _ _ u Hc Hk Hw)
        as (errs & s & msg & -> & Hf & _ & Hs).
      apply refused; [exact Hs | cbn [fetches]; rewrite Hf; cbn; lia].
  - unfold GET; cbn [param_city]; rewrite Hc, Hk.
    destruct (truthy k); apply (refused 500%N); try reflexivity; cbn; lia.
Qed.

(** X2: when the current-conditions call is rejected by the network, or
    answers a success status with a body that does not parse, the reply is
    500 with the generic message; the exception is reported on the
    console and neither the forecast nor the UV index is asked for. *)
Theorem transport_failure_reported key net city u e :
  truthy city = true ->
  Nat.eqb (String_length key) 32 = true ->
  weather_api net (weatherUrl city key (or_string u "imperial")) = Thrown e
  \/ (exists wr,
        weather_api net (weatherUrl city key (or_string u "imperial")) = Returned wr
        /\ Response.ok wr = true /\ Response.json wr = Thrown e) ->
  handler (Some key) net {| param_city := Some city; param_units := u |}
  = ([ Console log "Fetching weather from:"
               (replace key "[API_KEY]" (weatherUrl city key (or_string u "imperial")));
       Fetch (weatherUrl city key (or_string u "imperial"));
       Console error "Weather API error:" e ],
     Returned {| NextResponse.status := 500;
                 NextResponse.payload :=
                   NextResponse.Error
                     "Failed to fetch weather data. Please check your internet connection and try again." |}).
Proof.
  intros Hc Hk H. rewrite (GET_guarded _ _ _ _ _ _ Hc Hk).
  unfold aggregate, fetch, console, Response_json.
  destruct H as [Hr | (wr & Hr & Hok & Hj)]; rewrite Hr.
  - reflexivity.
  - cbn [bind negb]. rewrite Hok, Hj. reflexivity.
Qed.

(** X3: a request that obtains current conditions following the
    provider's contract, coordinates included, makes exactly three calls,
    in the order current conditions, forecast, UV index, each once; the
    UV index is asked for at the coordinates of the current conditions,
    whether or not the forecast call worked. *)
Theorem three_calls_in_order key net city u w :
  truthy city = true ->
  Nat.eqb (String_length key) 32 = true ->
  current_conditions net city key (or_string u "imperial") = Some w ->
  fetches (fst (handler (Some key) net {| param_city := Some city; param_units := u |}))
  = [ OPENWEATHER_BASE_URL ++ "/weather?q=" ++ encodeURIComponent city
        ++ "&appid=" ++ key ++ "&units=" ++ or_string u "imperial";
      OPENWEATHER_BASE_URL ++ "/forecast?q=" ++ encodeURIComponent city
        ++ "&appid=" ++ key ++ "&units=" ++ or_string u "imperial";
      OPENWEATHER_BASE_URL ++ "/uvi?lat="
        ++ Number_toString (CurrentPayload.coord_lat w)
        ++ "&lon=" ++ Number_toString (CurrentPayload.coord_lon w)
        ++ "&appid=" ++ key ].
Proof.
  intros Hc Hk Hw.
  destruct (GET_success_trace _ _ _ u _ Hc Hk Hw) as (t & uv & hf & -> & Hf & _).
  exact Hf.
Qed.

(** ** The UV index *)

Lemma get_uvIndex_ok net key w ur ud :
  uvi_api net (uvUrl Number_toString key w) = Returned ur ->
  Response.ok ur = true ->
  Response.json ur = Returned ud ->
  uv_branch net key w
  = ([Fetch (uvUrl Number_toString key w)],
     Returned (Math_round (or_number (UVPayload.value ud) 0))).
Proof.
  intros Hr Hok Hj. unfold get_uvIndex, fetch, Response_json.
  rewrite Hr; cbn. rewrite Hok, Hj. reflexivity.
Qed.

Lemma uvIndex_record u w uv hf : uvIndex (record u w uv hf) = uv.
Proof. unfold transformedData. destruct (_ =? _); reflexivity. Qed.

Lemma hourlyForecast_record u w uv hf : hourlyForecast (record u w uv hf) = hf.
Proof. unfold transformedData. destruct (_ =? _); reflexivity. Qed.

(** X4: when the UV call succeeds, [uvIndex] is the provider's value
    rounded to the nearest integer, and 0 when the body has no value. *)
Theorem uv_index_rounded key net city u w ur ud :
  truthy city = true ->
  Nat.eqb (String_length key) 32 = true ->
  current_conditions net city key (or_string u "imperial") = Some w ->
  uvi_api net (uvUrl Number_toString key w) = Returned ur ->
  Response.ok ur = true ->
  Response.json ur = Returned ud ->
  exists t r,
    handler (Some key) net {| param_city := Some city; param_units := u |}
    = (t, Returned {| NextResponse.status := 200;
                      NextResponse.payload := NextResponse.Data r |})
    /\ (forall v, UVPayload.value ud = Some v -> uvIndex r = Math_round v)
    /\ (UVPayload.value ud = None -> uvIndex r = 0%Z).
Proof.
  intros Hc Hk Hw Hr Hok Hj.
  destruct (GET_success_trace _ _ _ u _ Hc Hk Hw)
    as (t & uv & hf & -> & _ & _ & _ & Hu).
  rewrite (get_uvIndex_ok _ _ _ _ _ Hr Hok Hj) in Hu. injection Hu as <-.
  eexists; eexists. split; [reflexivity |].
  rewrite uvIndex_record. split.
  - intros v ->. apply Math_round_comp, or_number_present.
  - intros ->. reflexivity.
Qed.

(** X5: the two optional sections leave their defaults only on data from
    the provider: a forecast that is not empty comes from a forecast call
    that succeeded and parsed, and a UV index other than 0 from a UV call
    that succeeded with a value other than 0. *)
Theorem sections_filled_only_from_provider key net city u w :
  truthy city = true ->
  Nat.eqb (String_length key) 32 = true ->
  current_conditions net city key (or_string u "imperial") = Some w ->
  exists t r,
    handler (Some key) net {| param_city := Some city; param_units := u |}
    = (t, Returned {| NextResponse.status := 200;
                      NextResponse.payload := NextResponse.Data r |})
    /\ (hourlyForecast r <> [] ->
        exists fr fd,
          forecast_api net (forecastUrl city key (or_string u "imperial")) = Returned fr
          /\ Response.ok fr = true /\ Response.json fr = Returned fd
          /\ ForecastPayload.list fd <> [])
    /\ (uvIndex r <> 0%Z ->
        exists ur ud v,
          uvi_api net (uvUrl Number_toString key w) = Returned ur
          /\ Response.ok ur = true /\ Response.json ur = Returned ud
          /\ UVPayload.value ud = Some v /\ ~ v == 0).
Proof.
  intros Hc Hk Hw.
  destruct (GET_success_trace _ _ _ u _ Hc Hk Hw)
    as (t & uv & hf & -> & _ & _ & Hf & Hu).
  eexists; eexists. split; [reflexivity |].
  rewrite uvIndex_record, hourlyForecast_record. split.
  - intros Hne. revert Hf. unfold get_hourlyForecast, fetch, Response_json.
    destruct (forecast_api net _) as [fr | e]; cbn;
      [| intros [= <-]; contradiction].
    destruct (Response.ok fr) eqn:Hok; [| intros [= <-]; contradiction].
    destruct (Response.json fr) as [fd | e] eqn:Hj; cbn;
      [| intros [= <-]; contradiction].
    intros [= <-]. exists fr, fd. repeat split; trivial.
    intros E. apply Hne. rewrite E. reflexivity.
  - intros Hne. revert Hu. unfold get_uvIndex, fetch, Response_json.
    destruct (uvi_api net _) as [ur | e]; cbn;
      [| intros [= <-]; contradiction].
    destruct (Response.ok ur) eqn:Hok; [| intros [= <-]; contradiction].
    destruct (Response.json ur) as [ud | e] eqn:Hj; cbn;
      [| intros [= <-]; contradiction].
    intros [= <-].
    destruct (UVPayload.value ud) as [v |] eqn:Hv; [| contradiction].
    exists ur, ud, v. repeat split; trivial.
    intros Hz. apply Hne.
    change (Math_round (or_number (Some v) 0) = 0%Z).
    rewrite (Math_round_comp _ _ (or_number_present v)).
    rewrite (Math_round_comp _ _ Hz). reflexivity.
Qed.

(** ** Unit labels *)

(** X6: the unit labels of a record never mix systems: they are "mph",
    "mi" and degrees F together, exactly when the echoed [units] is
    "imperial", and "km/h", "km" and degrees C together otherwise; the
    placeholder "m/s" never leaves the handler. *)
Theorem unit_labels_agree key net request t resp r :
  handler key net request = (t, Returned resp) ->
  NextResponse.payload resp = NextResponse.Data r ->
  units r = units_of request
  /\ windUnit r <> "m/s"
  /\ ((units r = "imperial" /\ windUnit r = "mph" /\ visibilityUnit r = "mi"
       /\ tempUnit r = degree ++ "F")
      \/ (units r <> "imperial" /\ windUnit r = "km/h" /\ visibilityUnit r = "km"
          /\ tempUnit r = degree ++ "C")).
Proof.
  intros Hrun Hdata.
  destruct (GET_data_inv _ _ _ _ _ _ _ _ Hrun Hdata)
    as (city & k & w & uv & hf & _ & _ & _ & _ & _ & _ & ->).
  unfold transformedData.
  destruct (String.eqb_spec (units_of request) "imperial") as [E | N];
    cbn [units windUnit visibilityUnit tempUnit].
  - repeat split; [discriminate |]. left. repeat split; trivial.
  - repeat split; [discriminate |]. right. repeat split; trivial.
Qed.

(** ** Redaction of the logged addresses *)

(** X7: with a 32-character credential made of unreserved characters (as
    the provider's keys are) that occurs neither in the encoded city nor
    in the units, the handler logs one or two addresses, each with
    [appid=[API_KEY]] in place of the credential, and the credential
    occurs in neither line. *)
Theorem logged_addresses_redacted key net city u :
  truthy city = true ->
  Nat.eqb (String_length key) 32 = true ->
  all_chars unreserved key = true ->
  includes key (encodeURIComponent city) = false ->
  includes key (or_string u "imperial") = false ->
  let weather_line :=
    OPENWEATHER_BASE_URL ++ "/weather?q=" ++ encodeURIComponent city
      ++ "&appid=[API_KEY]&units=" ++ or_string u "imperial" in
  let forecast_line :=
    OPENWEATHER_BASE_URL ++ "/forecast?q=" ++ encodeURIComponent city
      ++ "&appid=[API_KEY]&units=" ++ or_string u "imperial" in
  let t := fst (handler (Some key) net
                        {| param_city := Some city; param_units := u |}) in
  (logged t = [weather_line] \/ logged t = [weather_line; forecast_line])
  /\ includes key weather_line = false
  /\ includes key forecast_line = false.
Proof.
  intros Hc Hk Hun Hcity Hunits.
  assert (Hlen : length key = 32%nat)
    by (rewrite <- (unreserved_length _ Hun); apply Nat.eqb_eq, Hk).
  assert (Heq : occurs "=" key = false)
    by (apply unreserved_excludes; [reflexivity | exact Hun]).
  assert (Hamp : occurs "&" key = false)
    by (apply unreserved_excludes; [reflexivity | exact Hun]).
  assert (Hsl : occurs "/" key = false)
    by (apply unreserved_excludes; [reflexivity | exact Hun]).
  destruct (endpoints_exclude key Hsl Hlen) as (Hw & Hf).
  assert (H9 : (9 < length key)%nat) by lia.
  destruct (redacted_query _ city key (or_string u "imperial")
              Heq Hamp H9 Hw Hcity Hunits) as (Rw & Iw).
  destruct (redacted_query _ city key (or_string u "imperial")
              Heq Hamp H9 Hf Hcity Hunits) as (Rf & If).
  assert (Ew : replace key "[API_KEY]" (weatherUrl city key (or_string u "imperial"))
               = OPENWEATHER_BASE_URL ++ "/weather?q=" ++ encodeURIComponent city
                   ++ "&appid=[API_KEY]&units=" ++ or_string u "imperial")
    by exact Rw.
  assert (Ef : replace key "[API_KEY]" (forecastUrl city key (or_string u "imperial"))
               = OPENWEATHER_BASE_URL ++ "/forecast?q=" ++ encodeURIComponent city
                   ++ "&appid=[API_KEY]&units=" ++ or_string u "imperial")
    by exact Rf.
  cbv zeta. split; [| split; [exact Iw | exact If]].
  destruct (current_conditions net city key (or_string u "imperial"))
    as [w |] eqn:Hcur.
  - destruct (GET_success_trace _ _ _ u _ Hc Hk Hcur) as (t & uv & hf & -> & _ & Hl & _).
    right. cbn [fst]. rewrite Hl, Ew, Ef. reflexivity.
  - destruct (GET_failure_trace _ _ _ u Hc Hk Hcur)
      as (errs & s & msg & -> & _ & Hl & _).
    left. cbn [fst logged]. rewrite Hl, Ew. reflexivity.
Qed.

End Handler_facts.

(** ** The city in the provider's addresses *)

Lemma all_chars_app (p : ascii -> bool) (a b : string) :
  all_chars p (a ++ b) = all_chars p a && all_chars p b.
Proof.
  induction a as [| x a IH]; [reflexivity |].
  cbn. rewrite IH. apply andb_assoc.
Qed.

Lemma all_chars_excludes (p : ascii -> bool) (c : ascii) (s : string) :
  p c = false -> all_chars p s = true -> occurs c s = false.
Proof.
  intros Hc. induction s as [| x s IH]; [reflexivity |]. cbn.
  intros H. apply andb_true_iff in H as [Hx Hs].
  rewrite (IH Hs), orb_false_r.
  destruct (Ascii.eqb_spec c x) as [-> | _]; [congruence | reflexivity].
Qed.

Lemma percent_encode_chars (c : ascii) :
  all_chars (fun x => unreserved x || Ascii.eqb x "%") (percent_encode c) = true.
Proof. destruct c as [[] [] [] [] [] [] [] []]; reflexivity. Qed.

Lemma encodeURIComponent_chars (s : string) :
  all_chars (fun x => unreserved x || Ascii.eqb x "%") (encodeURIComponent s) = true.
Proof.
  induction s as [| c s IH]; [reflexivity |].
  cbn [encodeURIComponent]. rewrite all_chars_app, IH, andb_true_r.
  destruct (unreserved c) eqn:E; [cbn; rewrite E; reflexivity |].
  apply percent_encode_chars.
Qed.

(** X8: whatever the city is, its part of the addresses sent to the
    provider holds only unreserved characters and percent escapes: no
    "&", "=", "#", "?", "/" or space, so a city cannot add or override a
    query parameter.  A city of unreserved characters is sent as it is. *)
Theorem city_confined_to_its_parameter (city key units : string) :
  weatherUrl city key units
  = OPENWEATHER_BASE_URL ++ "/weather?q=" ++ encodeURIComponent city
      ++ "&appid=" ++ key ++ "&units=" ++ units
  /\ forecastUrl city key units
     = OPENWEATHER_BASE_URL ++ "/forecast?q=" ++ encodeURIComponent city
         ++ "&appid=" ++ key ++ "&units=" ++ units
  /\ all_chars (fun x => unreserved x || Ascii.eqb x "%")
               (encodeURIComponent city) = true
  /\ occurs "&" (encodeURIComponent city) = false
  /\ occurs "=" (encodeURIComponent city) = false
  /\ occurs "#" (encodeURIComponent city) = false
  /\ occurs "?" (encodeURIComponent city) = false
  /\ occurs "/" (encodeURIComponent city) = false
  /\ occurs " " (encodeURIComponent city) = false
  /\ (all_chars unreserved city = true -> encodeURIComponent city = city).
Proof.
  pose proof (encodeURIComponent_chars city) as H.
  split; [reflexivity |]. split; [reflexivity |]. split; [exact H |].
  do 6 (split;
        [apply all_chars_excludes
           with (p := fun x => unreserved x || Ascii.eqb x "%");
         [reflexivity | exact H] |]).
  induction city as [| c city IH]; [reflexivity |]. cbn.
  intros Hc. apply andb_true_iff in Hc as [Hc Hs]. rewrite Hc.
  cbn. rewrite IH; [reflexivity | | exact Hs].
  apply encodeURIComponent_chars.
Qed.

(** * Properties of the page *)

(** ** Labels *)

Lemma Qle_bool_false (x y : Q) : Qle_bool x y = false -> y < x.
Proof.
  intros H. apply Qnot_le_lt. intros L.
  apply Qle_bool_iff in L. congruence.
Qed.

(** X9: the UV badge is consistent: for every index the label and the
    colour come from the same band, "Low"/green up to 2, "Moderate"/yellow
    up to 5, "High"/orange up to 7, "Very High"/red up to 10,
    "Extreme"/purple above. *)
Theorem uv_label_and_color_agree (uvIndex : Q) :
  (uvIndex <= 2
   /\ Client.getUVIndexLabel uvIndex = "Low"
   /\ Client.getUVIndexColor uvIndex = "bg-green-500")
  \/ (2 < uvIndex /\ uvIndex <= 5
      /\ Client.getUVIndexLabel uvIndex = "Moderate"
      /\ Client.getUVIndexColor uvIndex = "bg-yellow-500")
  \/ (5 < uvIndex /\ uvIndex <= 7
      /\ Client.getUVIndexLabel uvIndex = "High"
      /\ Client.getUVIndexColor uvIndex = "bg-orange-500")
  \/ (7 < uvIndex /\ uvIndex <= 10
      /\ Client.getUVIndexLabel uvIndex = "Very High"
      /\ Client.getUVIndexColor uvIndex = "bg-red-500")
  \/ (10 < uvIndex
      /\ Client.getUVIndexLabel uvIndex = "Extreme"
      /\ Client.getUVIndexColor uvIndex = "bg-purple-500").
Proof.
  unfold Client.getUVIndexLabel, Client.getUVIndexColor.
  destruct (Qle_bool uvIndex 2) eqn:E2;
    [left; apply Qle_bool_iff in E2; auto |].
  apply Qle_bool_false in E2. right.
  destruct (Qle_bool uvIndex 5) eqn:E5;
    [left; apply Qle_bool_iff in E5; auto |].
  apply Qle_bool_false in E5. right.
  destruct (Qle_bool uvIndex 7) eqn:E7;
    [left; apply Qle_bool_iff in E7; auto |].
  apply Qle_bool_false in E7. right.
  destruct (Qle_bool uvIndex 10) eqn:E10;
    [left; apply Qle_bool_iff in E10; auto |].
  apply Qle_bool_false in E10. right. auto.
Qed.

Lemma gt_monotone (x y c : Q) : x <= y -> Client.gt x c = true -> Client.gt y c = true.
Proof.
  unfold Client.gt. intros L H. apply negb_true_iff in H. apply negb_true_iff.
  apply Qle_bool_false in H.
  destruct (Qle_bool y c) eqn:E; [| reflexivity].
  apply Qle_bool_iff in E.
  exfalso. apply (Qlt_irrefl c).
  apply Qlt_le_trans with x; [exact H |]. apply Qle_trans with y; assumption.
Qed.

Lemma gt_false_monotone (x y c : Q) :
  x <= y -> Client.gt y c = false -> Client.gt x c = false.
Proof.
  intros L H. destruct (Client.gt x c) eqn:E; [| reflexivity].
  rewrite (gt_monotone _ _ _ L E) in H. discriminate.
Qed.

(** X10: the wind description is one of "Light", "Moderate" and "Strong"
    and never goes down when the speed goes up; the limits are 15 and 25
    for the unit "mph" and 20 and 40 for every other unit. *)
Theorem wind_description_monotone (unit : string) (x y : Q) :
  x <= y ->
  (Client.getWindSpeedDescription x unit = "Light"
   \/ Client.getWindSpeedDescription x unit = "Moderate"
   \/ Client.getWindSpeedDescription x unit = "Strong")
  /\ (Client.getWindSpeedDescription x unit = "Strong" ->
      Client.getWindSpeedDescription y unit = "Strong")
  /\ (Client.getWindSpeedDescription y unit = "Light" ->
      Client.getWindSpeedDescription x unit = "Light")
  /\ (Client.getWindSpeedDescription x unit = "Strong"
      <-> (if unit =? "mph" then 25 else 40) < x)
  /\ (Client.getWindSpeedDescription x unit = "Light"
      <-> x <= (if unit =? "mph" then 15 else 20)).
Proof.
  intros L. unfold Client.getWindSpeedDescription.
  set (hi := if unit =? "mph" then 25 else 40).
  set (lo := if unit =? "mph" then 15 else 20).
  assert (Hlh : lo <= hi) by (subst lo hi; destruct (unit =? "mph"); discriminate).
  assert (E : forall v,
             (if unit =? "mph"
              then if Client.gt v 25 then "Strong"
                   else if Client.gt v 15 then "Moderate" else "Light"
              else if Client.gt v 40 then "Strong"
                   else if Client.gt v 20 then "Moderate" else "Light")
             = if Client.gt v hi then "Strong"
               else if Client.gt v lo then "Moderate" else "Light")
    by (intros v; subst lo hi; destruct (unit =? "mph"); reflexivity).
  rewrite !E. clear E.
  assert (G : forall v c, Client.gt v c = true <-> c < v).
  { intros v c. unfold Client.gt. split; intros H.
    - apply negb_true_iff in H. apply Qle_bool_false, H.
    - apply negb_true_iff. destruct (Qle_bool v c) eqn:B; [| reflexivity].
      apply Qle_bool_iff in B. exfalso. apply (Qlt_irrefl c).
      apply Qlt_le_trans with v; assumption. }
  assert (Gf : forall v c, Client.gt v c = false <-> v <= c).
  { intros v c. unfold Client.gt. rewrite negb_false_iff. apply Qle_bool_iff. }
  destruct (Client.gt x hi) eqn:Xh; destruct (Client.gt x lo) eqn:Xl;
    destruct (Client.gt y hi) eqn:Yh; destruct (Client.gt y lo) eqn:Yl;
    try (rewrite (gt_monotone _ _ _ L Xh) in Yh; discriminate);
    try (rewrite (gt_monotone _ _ _ L Xl) in Yl; discriminate);
    try (apply G in Xh); try (apply Gf in Xh);
    try (apply G in Xl); try (apply Gf in Xl);
    repeat split; auto; try discriminate; intros H;
    try (exfalso; apply (Qlt_irrefl lo);
         first [ apply Qlt_le_trans with x; assumption
               | apply Qle_lt_trans with hi; [assumption |];
                 apply Qlt_le_trans with x; assumption ]);
    try (exfalso; apply (Qlt_irrefl hi); apply Qlt_le_trans with x; assumption).
Qed.

(** ** [capitalizeWords] *)

Lemma word_char_toUpperCase (c : ascii) :
  Client.word_char (Client.toUpperCase c) = Client.word_char c.
Proof. destruct c as [[] [] [] [] [] [] [] []]; reflexivity. Qed.

Lemma toUpperCase_twice (c : ascii) :
  Client.toUpperCase (Client.toUpperCase c) = Client.toUpperCase c.
Proof. destruct c as [[] [] [] [] [] [] [] []]; reflexivity. Qed.

Lemma capitalize_from_twice (inside : bool) (str : string) :
  Client.capitalize_from inside (Client.capitalize_from inside str)
  = Client.capitalize_from inside str.
Proof.
  revert inside. induction str as [| c rest IH]; intros inside; [reflexivity |].
  cbn [Client.capitalize_from].
  destruct (Client.word_char c && negb inside) eqn:E.
  - rewrite word_char_toUpperCase, E, toUpperCase_twice, IH. reflexivity.
  - rewrite E, IH. reflexivity.
Qed.

Lemma capitalize_from_length (inside : bool) (str : string) :
  length (Client.capitalize_from inside str) = length str.
Proof.
  revert inside. induction str as [| c rest IH]; intros inside; [reflexivity |].
  cbn. rewrite IH. reflexivity.
Qed.

Lemma capitalize_from_app (inside : bool) (a b : string) (c : ascii) :
  Client.word_char c = false ->
  Client.capitalize_from inside (a ++ String c b)
  = Client.capitalize_from inside a ++ String c (Client.capitalizeWords b).
Proof.
  intros Hc. revert inside. induction a as [| x a IH]; intros inside.
  - cbn. rewrite Hc. reflexivity.
  - cbn. rewrite IH. reflexivity.
Qed.

(** X11: [capitalizeWords] keeps the length of the text, changes nothing
    when applied a second time, and works word by word: around a
    character that is not a letter, digit or underscore, each side is
    capitalised on its own. *)
Theorem capitalizeWords_word_by_word (a b : string) (c : ascii) :
  Client.word_char c = false ->
  Client.capitalizeWords (a ++ String c b)
  = Client.capitalizeWords a ++ String c (Client.capitalizeWords b)
  /\ Client.capitalizeWords (Client.capitalizeWords a) = Client.capitalizeWords a
  /\ length (Client.capitalizeWords a) = length a.
Proof.
  intros Hc. split; [apply capitalize_from_app, Hc |].
  split; [apply capitalize_from_twice | apply capitalize_from_length].
Qed.

(** ** Icons *)

Lemma includes_day_night (p1 p2 a b : ascii) :
  p1 <> "d"%char -> p1 <> "n"%char -> p2 <> "d"%char -> p2 <> "n"%char ->
  includes (String p1 (String p2 "")) (String a (String b "d"))
  = includes (String p1 (String p2 "")) (String a (String b "n")).
Proof.
  intros H1 H2 H3 H4. cbn.
  repeat match goal with
         | |- context [ascii_dec ?x ?y] => destruct (ascii_dec x y)
         end; congruence.
Qed.

Section Icon_facts.

Variable toLowerCase : string -> string.

Local Abbreviation icon := (Client.getWeatherIcon toLowerCase).

Lemma icon_by_code_day_night (cls : string) (a b : ascii) :
  Client.icon_by_code cls (String a (String b "d"))
  = Client.icon_by_code cls (String a (String b "n")).
Proof.
  unfold Client.icon_by_code.
  rewrite !(includes_day_night _ _ a b) by discriminate.
  reflexivity.
Qed.

(** X12: the icon does not tell day from night: for an icon code of two
    characters followed by "d", the element is the one for the same two
    characters followed by "n".  The size argument only selects the size
    class; the component drawn is the same for "sm" and "lg". *)
Theorem icon_ignores_day_night_and_size (condition : string) (a b : ascii)
        (iconCode : option string) (size : Client.size) :
  icon condition (Some (String a (String b "d"))) size
  = icon condition (Some (String a (String b "n"))) size
  /\ Client.tag (icon condition iconCode Client.sm)
     = Client.tag (icon condition iconCode Client.lg)
  /\ prefix (Client.sizeClass size ++ " text-")
            (Client.className (icon condition iconCode size)) = true.
Proof.
  split; [| split].
  - unfold Client.getWeatherIcon. cbn [truthy].
    rewrite icon_by_code_day_night. reflexivity.
  - unfold Client.getWeatherIcon, Client.icon_by_code, Client.icon_by_condition.
    destruct iconCode as [code |]; [destruct (truthy code) |];
      repeat match goal with
             | |- context [if ?x then _ else _] => destruct x
             end; reflexivity.
  - unfold Client.getWeatherIcon, Client.icon_by_code, Client.icon_by_condition.
    destruct size;
      (destruct iconCode as [code |]; [destruct (truthy code) |]);
      repeat match goal with
             | |- context [if ?x then _ else _] => destruct x
             end; reflexivity.
Qed.

End Icon_facts.

(** ** The record on the page *)

Lemma Math_round_monotone (x y : Q) : x <= y -> (Math_round x <= Math_round y)%Z.
Proof.
  intros L. unfold Math_round. apply Qfloor_resp_le.
  apply Qplus_le_compat; [exact L | apply Qle_refl].
Qed.

Lemma or_number_capped (x : option Q) (d : Q) :
  (forall v, x = Some v -> v <= d) -> or_number x d <= d.
Proof.
  intros H. destruct x as [v |]; cbn; [| apply Qle_refl].
  destruct (Qeq_bool v 0); [apply Qle_refl | apply H; reflexivity].
Qed.

Lemma Math_round_quotient_capped (x d c : Q) :
  0 < c -> x <= d -> (Math_round (x / c) <= Math_round (d / c))%Z.
Proof.
  intros Hc L. apply Math_round_monotone. unfold Qdiv.
  apply Qmult_le_compat_r; [exact L |].
  apply Qlt_le_weak, Qinv_lt_0_compat, Hc.
Qed.

Lemma gt_inject_Z (z c : Z) : (z <= c)%Z -> Client.gt (inject_Z z) (inject_Z c) = false.
Proof.
  intros L. unfold Client.gt. apply negb_false_iff, Qle_bool_iff.
  rewrite <- Zle_Qle. exact L.
Qed.

Section Page_facts.

Variable toLowerCase : string -> string.
Variable Number_toString : Q -> string.

Local Abbreviation handler := (GET toLowerCase Number_toString).
Local Abbreviation record := (transformedData toLowerCase).

(** X13: for a provider that reports at most 10000 metres (or nothing),
    the page never describes the visibility of a record as "Excellent":
    the handler's rounding gives at most 6 "mi" or 10 "km", and the page
    asks for more than that.  A payload without visibility is shown as
    "Good". *)
Theorem capped_visibility_never_excellent key net request t resp r :
  handler key net request = (t, Returned resp) ->
  NextResponse.payload resp = NextResponse.Data r ->
  exists city k w,
    param_city request = Some city /\ key = Some k
    /\ current_conditions net city k (units_of request) = Some w
    /\ ((forall v, CurrentPayload.visibility w = Some v -> v <= 10000) ->
        Client.getVisibilityDescription (inject_Z (visibility r)) (visibilityUnit r)
        <> "Excellent")
    /\ (CurrentPayload.visibility w = None ->
        Client.getVisibilityDescription (inject_Z (visibility r)) (visibilityUnit r)
        = "Good").
Proof.
  intros Hrun Hdata.
  destruct (GET_data_inv _ _ _ _ _ _ _ _ Hrun Hdata)
    as (city & k & w & uv & hf & Hc & _ & Hk & _ & Hw & _ & ->).
  exists city, k, w. repeat (split; [assumption |]).
  destruct (String.eqb_spec (units_of request) "imperial") as [E | N].
  - rewrite E. destruct (record_imperial toLowerCase w uv hf) as (_ & _ & Hv & Hu).
    rewrite Hv, Hu. split.
    + intros Hcap.
      assert (L : (Math_round (or_number (CurrentPayload.visibility w) 10000 / 1609.34)
                   <= 6)%Z).
      { change 6%Z with (Math_round (10000 / 1609.34)).
        apply Math_round_quotient_capped; [reflexivity |].
        apply or_number_capped, Hcap. }
      unfold Client.getVisibilityDescription. cbn [String.eqb Ascii.eqb Bool.eqb].
      change (6 : Q) with (inject_Z 6). rewrite (gt_inject_Z _ _ L).
      destruct (Client.gt _ _); discriminate.
    + intros ->. reflexivity.
  - apply String.eqb_neq in N.
    destruct (record_not_imperial toLowerCase _ w uv hf N) as (_ & _ & Hv & Hu & _).
    rewrite Hv, Hu. split.
    + intros Hcap.
      assert (L : (Math_round (or_number (CurrentPayload.visibility w) 10000 / 1000)
                   <= 10)%Z).
      { change 10%Z with (Math_round (10000 / 1000)).
        apply Math_round_quotient_capped; [reflexivity |].
        apply or_number_capped, Hcap. }
      unfold Client.getVisibilityDescription. cbn [String.eqb Ascii.eqb Bool.eqb].
      change (10 : Q) with (inject_Z 10). rewrite (gt_inject_Z _ _ L).
      destruct (Client.gt _ _); discriminate.
    + intros ->. reflexivity.
Qed.

End Page_facts.

(** ** The event handlers *)

Lemma encodeURIComponent_truthy (s : string) :
  truthy s = true -> truthy (encodeURIComponent s) = true.
Proof.
  destruct s as [| c s]; [discriminate |]. intros _. cbn.
  destruct (unreserved c); reflexivity.
Qed.

Lemma handleSearch_settled (api : server NextResponse.body) (st : Client.State.t) :
  truthy (Client.String_trim (Client.State.searchQuery st)) = true ->
  exists t st',
    Client.handleSearch api st = (t, Returned st')
    /\ fetches t
       = ["/api/weather?city="
            ++ encodeURIComponent (Client.String_trim (Client.State.searchQuery st))
            ++ "&units=" ++ Client.State.units st]
    /\ truthy (encodeURIComponent
                 (Client.String_trim (Client.State.searchQuery st))) = true
    /\ Client.State.isLoading st' = false
    /\ Client.State.searchQuery st' = Client.State.searchQuery st
    /\ Client.State.units st' = Client.State.units st
    /\ ((Client.State.weatherData st' = None
         /\ truthy (Client.State.error st') = true)
        \/ (exists data, Client.State.weatherData st' = Some data
                         /\ Client.State.error st' = "")).
Proof.
  intros H; unfold Client.handleSearch; rewrite H.
  pose proof (encodeURIComponent_truthy _ H) as Henc.
  cbn [negb]. unfold fetch, Response_json, Client.apiUrl, console.
  cbn [Client.setError Client.setIsLoading Client.State.searchQuery Client.State.units].
  destruct (api _) as [response | e]; cbn [bind try_catch ret app];
    [destruct (Response.json response) as [data | e]; cbn [bind try_catch ret app];
     [destruct (Response.ok response); cbn [bind try_catch ret app negb];
      [| destruct (Response.status response =? 401)%N;
         [| destruct (Response.status response =? 404)%N;
            [| destruct (Response.status response =? 429)%N]]] |] |];
    do 2 eexists;
    (split; [reflexivity |]); (split; [reflexivity |]); (split; [exact Henc |]);
    (split; [reflexivity |]); (split; [reflexivity |]); (split; [reflexivity |]);
    first [ right; eexists; split; reflexivity
          | left; split; [reflexivity |] ];
    try reflexivity.
  cbn [Client.State.error Client.setWeatherData Client.setError].
  destruct (Client.data_error data) as [[| c msg] |]; reflexivity.
Qed.

(** X14: [handleSearch] does nothing at all for a search box that is
    empty or white space only.  Otherwise it makes one request, for the
    trimmed text (never an empty city) and the current units, and when
    it has settled the page is not loading and shows either a record and
    no error, or an error and no record. *)
Theorem search_settles (api : server NextResponse.body) (st : Client.State.t) :
  (truthy (Client.String_trim (Client.State.searchQuery st)) = false ->
   Client.handleSearch api st = ([], Returned st))
  /\ (truthy (Client.String_trim (Client.State.searchQuery st)) = true ->
      exists t st',
        Client.handleSearch api st = (t, Returned st')
        /\ fetches t
           = ["/api/weather?city="
                ++ encodeURIComponent (Client.String_trim (Client.State.searchQuery st))
                ++ "&units=" ++ Client.State.units st]
        /\ truthy (encodeURIComponent
                     (Client.String_trim (Client.State.searchQuery st))) = true
        /\ Client.State.isLoading st' = false
        /\ Client.State.searchQuery st' = Client.State.searchQuery st
        /\ Client.State.units st' = Client.State.units st
        /\ ((Client.State.weatherData st' = None
             /\ truthy (Client.State.error st') = true)
            \/ (exists data, Client.State.weatherData st' = Some data
                             /\ Client.State.error st' = ""))).
Proof.
  split; [| apply handleSearch_settled].
  intros H. unfold Client.handleSearch. rewrite H. reflexivity.
Qed.

Lemma toggleUnits_returns (api : server NextResponse.body) (st : Client.State.t) :
  exists t st',
    Client.toggleUnits api st = (t, Returned st')
    /\ Client.State.units st'
       = (if Client.State.units st =? "imperial" then "metric" else "imperial")
    /\ Client.State.searchQuery st' = Client.State.searchQuery st.
Proof.
  unfold Client.toggleUnits, fetch, Response_json, console.
  destruct (Client.State.weatherData st) as [d |];
    [destruct (truthy (Client.State.searchQuery st)) |];
    try (do 2 eexists; repeat split; reflexivity).
  destruct (api _) as [response | e]; cbn [bind try_catch ret app];
    [destruct (Response.json response) as [data | e]; cbn [bind try_catch ret app];
     [destruct (Client.data_error data) as [msg |];
      [destruct (truthy msg) |] |] |];
    do 2 eexists; repeat split; reflexivity.
Qed.

(** X15: [toggleUnits] always switches the unit system, whatever the
    request does: "imperial" becomes "metric" and anything else becomes
    "imperial", so from either system two toggles come back to it.
    Without a record on the page, or with an empty search box, nothing
    is requested and nothing else changes. *)
Theorem toggle_switches_units (api : server NextResponse.body) (st : Client.State.t) :
  exists t st',
    Client.toggleUnits api st = (t, Returned st')
    /\ Client.State.units st'
       = (if Client.State.units st =? "imperial" then "metric" else "imperial")
    /\ (Client.State.units st = "imperial" \/ Client.State.units st = "metric" ->
        Client.State.units st' <> Client.State.units st
        /\ forall api' t'' st'',
             Client.toggleUnits api' st' = (t'', Returned st'') ->
             Client.State.units st'' = Client.State.units st)
    /\ (Client.State.weatherData st = None \/ Client.State.searchQuery st = "" ->
        t = []
        /\ st' = Client.setUnits
                   (if Client.State.units st =? "imperial" then "metric" else "imperial")
                   st).
Proof.
  destruct (toggleUnits_returns api st) as (t & st' & Hrun & Hu & Hq).
  exists t, st'. split; [exact Hrun |]. split; [exact Hu |]. split.
  - intros Hsys. split.
    + rewrite Hu. destruct Hsys as [-> | ->]; discriminate.
    + intros api' t'' st'' Hrun'.
      destruct (toggleUnits_returns api' st') as (t2 & st2 & Hrun2 & Hu2 & _).
      rewrite Hrun2 in Hrun'. injection Hrun' as _ <-.
      rewrite Hu2, Hu. destruct Hsys as [-> | ->]; reflexivity.
  - intros Hidle. revert Hrun. unfold Client.toggleUnits.
    destruct Hidle as [-> | ->].
    + intros [= <- <-]. split; reflexivity.
    + destruct (Client.State.weatherData st); intros [= <- <-]; split; reflexivity.
Qed.

(** X16: when the request of [toggleUnits] fails (the network rejects
    it, the body does not parse, or the body carries an error message),
    the page keeps the record it had, reports an error and stops loading,
    but the unit system stays switched: a record in the old system is
    shown under the new setting. *)
Theorem toggle_failure_keeps_record (api : server NextResponse.body)
        (st : Client.State.t) (shown : NextResponse.body) :
  Client.State.weatherData st = Some shown ->
  truthy (Client.State.searchQuery st) = true ->
  (exists e,
      api (Client.apiUrl (Client.State.searchQuery st)
             (if Client.State.units st =? "imperial" then "metric" else "imperial"))
      = Thrown e)
  \/ (exists response,
        api (Client.apiUrl (Client.State.searchQuery st)
               (if Client.State.units st =? "imperial" then "metric" else "imperial"))
        = Returned response
        /\ ((exists e, Response.json response = Thrown e)
            \/ (exists msg, Response.json response = Returned (NextResponse.Error msg)
                            /\ truthy msg = true))) ->
  exists t st',
    Client.toggleUnits api st = (t, Returned st')
    /\ Client.State.weatherData st' = Some shown
    /\ truthy (Client.State.error st') = true
    /\ Client.State.isLoading st' = false
    /\ Client.State.units st'
       = (if Client.State.units st =? "imperial" then "metric" else "imperial")
    /\ (forall r, shown = NextResponse.Data r ->
                  units r = Client.State.units st ->
                  Client.State.units st = "imperial" \/ Client.State.units st = "metric" ->
                  units r <> Client.State.units st').
Proof.
  intros Hshown Hq Hfail.
  assert (Hflip : forall r, shown = NextResponse.Data r ->
                   units r = Client.State.units st ->
                   Client.State.units st = "imperial" \/ Client.State.units st = "metric" ->
                   units r <> (if Client.State.units st =? "imperial"
                               then "metric" else "imperial"))
    by (intros r _ -> [-> | ->]; discriminate).
  unfold Client.toggleUnits, fetch, Response_json, console.
  rewrite Hshown, Hq.
  destruct Hfail as [(e & ->) | (response & -> & [(e & Hj) | (msg & Hj & Hm)])];
    cbn [bind try_catch ret app]; rewrite ?Hj; cbn [bind try_catch ret app];
    cbn [Client.data_error]; rewrite ?Hm;
    do 2 eexists; (split; [reflexivity |]);
    cbn [Client.State.weatherData Client.State.error Client.State.isLoading
         Client.State.units Client.setError Client.setIsLoading
         Client.setUnits Client.setWeatherData];
    repeat split; trivial.
Qed.

(** ** Panels *)

Lemma error_panels_exclusive (error : string) :
  Client.showsSetupSteps error && Client.showsErrorCard error = false
  /\ Client.showsSetupSteps error || Client.showsErrorCard error = truthy error.
Proof.
  unfold Client.showsSetupSteps, Client.showsErrorCard.
  destruct error as [| c e]; [split; reflexivity |].
  cbn [truthy andb].
  destruct (includes "API key" (String c e));
    destruct (includes "authentication" (String c e)); split; reflexivity.
Qed.

(** X19: when a search has settled the page shows exactly one of the
    weather display and an error panel, and never the welcome card; an
    error is shown in exactly one of the two error panels, the set-up
    instructions or the plain card. *)
Theorem search_shows_one_panel (api : server NextResponse.body) (st : Client.State.t) :
  truthy (Client.String_trim (Client.State.searchQuery st)) = true ->
  exists t st',
    Client.handleSearch api st = (t, Returned st')
    /\ Client.showsWelcome st' = false
    /\ xorb (Client.showsWeather st')
            (Client.showsSetupSteps (Client.State.error st')
             || Client.showsErrorCard (Client.State.error st')) = true
    /\ Client.showsSetupSteps (Client.State.error st')
       && Client.showsErrorCard (Client.State.error st') = false.
Proof.
  intros H.
  destruct (handleSearch_settled api st H)
    as (t & st' & Hrun & _ & _ & _ & _ & _ & Hout).
  exists t, st'. split; [exact Hrun |].
  destruct (error_panels_exclusive (Client.State.error st')) as (Hand & Hor).
  rewrite Hor. unfold Client.showsWelcome, Client.showsWeather.
  destruct Hout as [(-> & ->) | (data & -> & He)].
  - repeat split; trivial.
  - rewrite He in *. repeat split; trivial.
Qed.

Section Page_and_handler.

Variable toLowerCase : string -> string.
Variable Number_toString : Q -> string.

Local Abbreviation handler := (GET toLowerCase Number_toString).

(** X17: with a record on the page and a search box that holds white
    space only, [handleSearch] requests nothing but [toggleUnits] asks
    for an empty city.  The handler answers an empty city with 400 and
    "City parameter is required", whatever its credential and network;
    on that answer the page shows this message over the record it
    had. *)
Theorem toggle_sends_blank_city (api : server NextResponse.body)
        (st : Client.State.t) (shown : NextResponse.body)
        key net (u : option string) :
  Client.State.weatherData st = Some shown ->
  truthy (Client.State.searchQuery st) = true ->
  Client.String_trim (Client.State.searchQuery st) = "" ->
  let newUnits := if Client.State.units st =? "imperial" then "metric" else "imperial" in
  Client.handleSearch api st = ([], Returned st)
  /\ fetches (fst (Client.toggleUnits api st))
     = ["/api/weather?city=&units=" ++ newUnits]
  /\ exists reply,
       handler key net {| param_city := Some ""; param_units := u |}
       = ([], Returned reply)
       /\ NextResponse.status reply = 400%N
       /\ exists st',
            Client.toggleUnits (answering reply) st
            = ([Fetch ("/api/weather?city=&units=" ++ newUnits)], Returned st')
            /\ Client.State.error st' = "City parameter is required"
            /\ Client.State.weatherData st' = Some shown
            /\ Client.State.units st' = newUnits.
Proof.
  intros Hshown Hq Hblank newUnits. split; [| split].
  - unfold Client.handleSearch. rewrite Hblank. reflexivity.
  - unfold Client.toggleUnits, fetch, Response_json, console, Client.apiUrl.
    rewrite Hshown, Hq, Hblank.
    destruct (api _) as [response | e]; cbn [bind try_catch ret app];
      [destruct (Response.json response) as [data | e]; cbn [bind try_catch ret app];
       [destruct (Client.data_error data) as [msg |];
        [destruct (truthy msg) |] |] |];
      reflexivity.
  - exists {| NextResponse.status := 400;
              NextResponse.payload := NextResponse.Error "City parameter is required" |}.
    split; [reflexivity |]. split; [reflexivity |].
    unfold Client.toggleUnits, Client.apiUrl. rewrite Hshown, Hq, Hblank.
    eexists. split; [reflexivity |].
    split; [reflexivity |]. split; [exact Hshown | reflexivity].
Qed.

(** X18: every credential problem ends on the page with the key set-up
    instructions: when the handler answers a search without a usable
    credential (none configured, or not 32 characters), or relays the
    provider's 401, [handleSearch] leaves no record and an error that
    the set-up test recognises. *)
Theorem credential_failures_show_setup_steps key net city u t reply
        (st : Client.State.t) :
  truthy (Client.String_trim (Client.State.searchQuery st)) = true ->
  truthy city = true ->
  handler key net {| param_city := Some city; param_units := u |}
  = (t, Returned reply) ->
  credential_valid key = false \/ NextResponse.status reply = 401%N ->
  exists t' st',
    Client.handleSearch (answering reply) st = (t', Returned st')
    /\ Client.State.weatherData st' = None
    /\ Client.showsSetupSteps (Client.State.error st') = true
    /\ Client.State.isLoading st' = false.
Proof.
  intros Hq Hc Hrun Hcause.
  assert (H401 : NextResponse.status reply = 401%N ->
                 exists t' st',
                   Client.handleSearch (answering reply) st = (t', Returned st')
                   /\ Client.State.weatherData st' = None
                   /\ Client.showsSetupSteps (Client.State.error st') = true
                   /\ Client.State.isLoading st' = false).
  { intros Hs. unfold Client.handleSearch, answering, fetch, Response_json.
    rewrite Hq. cbn [negb bind try_catch ret app Response.ok Response.status
                     Response.json].
    rewrite Hs. do 2 eexists. split; [reflexivity |]. repeat split. }
  destruct Hcause as [Hbad | Hs]; [| exact (H401 Hs)].
  revert Hrun. unfold GET. cbn [param_city]. rewrite Hc. cbn [negb].
  destruct key as [k |].
  - cbn in Hbad. rewrite Hbad.
    destruct (truthy k); cbn [negb]; intros [= <- <-];
      unfold Client.handleSearch; rewrite Hq;
      do 2 eexists; (split; [reflexivity |]); repeat split.
  - intros [= <- <-]. unfold Client.handleSearch; rewrite Hq.
    do 2 eexists. split; [reflexivity |]. repeat split.
Qed.

End Page_and_handler.

(** * The further properties on sample requests and pages *)

Module MoreRuns.

Import Sample PageSample.

Lemma handler_always_replies_witness :
  exists t resp,
    run (Some key) (degraded (paris (Some 10000) (Some 10)))
        (request (Some "Paris") (Some "metric"))
    = (t, Returned resp)
    /\ NextResponse.status resp = 200%N
    /\ List.length (fetches t) = 3%nat.
Proof.
  destruct (handler_always_replies toLowerCase Number_toString (Some key)
              (degraded (paris (Some 10000) (Some 10)))
              (request (Some "Paris") (Some "metric")))
    as (t & resp & Hrun & _ & Hdata & _).
  exists t, resp. split; [exact Hrun |].
  apply Hdata. exists metric_record.
  assert (E : snd metric_run
              = Returned {| NextResponse.status := 200;
                            NextResponse.payload := NextResponse.Data metric_record |})
    by reflexivity.
  unfold metric_run, run in E. rewrite Hrun in E. injection E as ->. reflexivity.
Defined.

Lemma transport_failure_reported_witness :
  snd (run (Some key) unreachable (request (Some "Paris") None))
  = Returned {| NextResponse.status := 500;
                NextResponse.payload :=
                  NextResponse.Error
                    "Failed to fetch weather data. Please check your internet connection and try again." |}.
Proof.
  unfold run, request.
  rewrite (transport_failure_reported toLowerCase Number_toString key unreachable
             "Paris" None "TypeError: fetch failed" eq_refl eq_refl
             (or_introl eq_refl)).
  reflexivity.
Defined.

Lemma three_calls_in_order_witness :
  fetches (fst metric_run)
  = [ "https://api.openweathermap.org/data/2.5/weather?q=Paris&appid=0123456789abcdef0123456789abcdef&units=metric";
      "https://api.openweathermap.org/data/2.5/forecast?q=Paris&appid=0123456789abcdef0123456789abcdef&units=metric";
      "https://api.openweathermap.org/data/2.5/uvi?lat=49&lon=2&appid=0123456789abcdef0123456789abcdef" ].
Proof.
  exact (three_calls_in_order toLowerCase Number_toString key
           (degraded (paris (Some 10000) (Some 10))) "Paris" (Some "metric")
           (paris (Some 10000) (Some 10)) eq_refl eq_refl eq_refl).
Defined.

Lemma uv_index_rounded_witness :
  exists t r,
    run (Some key) (healthy (paris None (Some 2.5)) nine_slots (Some 5.5))
        (request (Some "Paris") (Some "metric"))
    = (t, Returned {| NextResponse.status := 200;
                      NextResponse.payload := NextResponse.Data r |})
    /\ uvIndex r = 6%Z.
Proof.
  destruct (uv_index_rounded toLowerCase Number_toString key
              (healthy (paris None (Some 2.5)) nine_slots (Some 5.5))
              "Paris" (Some "metric") (paris None (Some 2.5))
              {| Response.status := 200; Response.text := Returned "{}";
                 Response.json := Returned {| UVPayload.value := Some 5.5 |} |}
              {| UVPayload.value := Some 5.5 |}
              eq_refl eq_refl eq_refl eq_refl eq_refl eq_refl)
    as (t & r & Hrun & Hv & _).
  exists t, r. split; [exact Hrun | exact (Hv 5.5 eq_refl)].
Defined.

Lemma sections_filled_only_from_provider_witness :
  exists t r,
    run (Some key) (degraded (paris (Some 10000) (Some 10)))
        (request (Some "Paris") (Some "metric"))
    = (t, Returned {| NextResponse.status := 200;
                      NextResponse.payload := NextResponse.Data r |})
    /\ hourlyForecast r = [] /\ uvIndex r = 0%Z.
Proof.
  destruct (sections_filled_only_from_provider toLowerCase Number_toString key
              (degraded (paris (Some 10000) (Some 10))) "Paris" (Some "metric")
              (paris (Some 10000) (Some 10)) eq_refl eq_refl eq_refl)
    as (t & r & Hrun & Hf & Hu).
  exists t, r. split; [exact Hrun |]. split.
  - destruct (hourlyForecast r) as [| e l]; [reflexivity |].
    destruct Hf as (fr & fd & Habs & _); [discriminate | discriminate Habs].
  - destruct (Z.eq_dec (uvIndex r) 0) as [E | N]; [exact E |].
    destruct (Hu N) as (ur & ud & v & Hr & Hok & _).
    injection Hr as <-. discriminate Hok.
Defined.

Lemma unit_labels_agree_witness :
  units metric_record = "metric"
  /\ windUnit metric_record = "km/h" /\ visibilityUnit metric_record = "km".
Proof.
  destruct (unit_labels_agree toLowerCase Number_toString (Some key)
              (degraded (paris (Some 10000) (Some 10)))
              (request (Some "Paris") (Some "metric"))
              (fst metric_run)
              {| NextResponse.status := 200;
                 NextResponse.payload := NextResponse.Data metric_record |}
              metric_record eq_refl eq_refl)
    as (Hu & _ & [(Habs & _) | (_ & Hw & Hv & _)]);
    [discriminate Habs |].
  split; [exact Hu | split; assumption].
Defined.

Lemma logged_addresses_redacted_witness :
  logged (fst metric_run)
  = [ "https://api.openweathermap.org/data/2.5/weather?q=Paris&appid=[API_KEY]&units=metric";
      "https://api.openweathermap.org/data/2.5/forecast?q=Paris&appid=[API_KEY]&units=metric" ]
  /\ includes key
       "https://api.openweathermap.org/data/2.5/weather?q=Paris&appid=[API_KEY]&units=metric"
     = false.
Proof.
  destruct (logged_addresses_redacted toLowerCase Number_toString key
              (degraded (paris (Some 10000) (Some 10))) "Paris" (Some "metric")
              eq_refl eq_refl eq_refl eq_refl eq_refl)
    as ([Habs | Hl] & Hw & _); [discriminate Habs |].
  split; [exact Hl | exact Hw].
Defined.

Lemma city_confined_to_its_parameter_witness :
  encodeURIComponent "Paris" = "Paris"
  /\ occurs "&" (encodeURIComponent "Paris&units=metric") = false.
Proof.
  split.
  - apply (city_confined_to_its_parameter "Paris" key "metric"). reflexivity.
  - apply (city_confined_to_its_parameter "Paris&units=metric" key "metric").
Defined.

Lemma wind_description_monotone_witness :
  Client.getWindSpeedDescription 30 "mph" = "Strong".
Proof.
  destruct (wind_description_monotone "mph" 26 30) as (_ & Hup & _);
    [unfold Qle; simpl; lia |].
  apply Hup. reflexivity.
Defined.

Lemma capitalizeWords_word_by_word_witness :
  Client.capitalizeWords "few clouds" = "Few" ++ " " ++ "Clouds".
Proof.
  destruct (capitalizeWords_word_by_word "few" "clouds" " " eq_refl) as (H & _).
  exact H.
Defined.

Lemma capped_visibility_never_excellent_witness :
  Client.getVisibilityDescription
    (inject_Z (visibility default_visibility_record))
    (visibilityUnit default_visibility_record)
  = "Good".
Proof.
  destruct (capped_visibility_never_excellent toLowerCase Number_toString
              (Some key) (degraded (paris None (Some 4)))
              (request (Some "Paris") None)
              (fst default_visibility_run)
              {| NextResponse.status := 200;
                 NextResponse.payload := NextResponse.Data default_visibility_record |}
              default_visibility_record eq_refl eq_refl)
    as (city & k & w & Hc & Hk & Hw & _ & Hgood).
  injection Hc as <-. injection Hk as <-. injection Hw as <-.
  exact (Hgood eq_refl).
Defined.

Lemma search_settles_witness :
  exists t st',
    Client.handleSearch offline searching = (t, Returned st')
    /\ fetches t = ["/api/weather?city=Paris&units=imperial"]
    /\ Client.State.isLoading st' = false.
Proof.
  destruct (search_settles offline searching) as (_ & H).
  destruct (H eq_refl) as (t & st' & Hrun & Hf & _ & Hl & _).
  exists t, st'. split; [exact Hrun | split; [exact Hf | exact Hl]].
Defined.

Lemma toggle_switches_units_witness :
  exists t st',
    Client.toggleUnits offline showing = (t, Returned st')
    /\ Client.State.units st' = "imperial".
Proof.
  destruct (toggle_switches_units offline showing) as (t & st' & Hrun & Hu & _).
  exists t, st'. split; [exact Hrun | exact Hu].
Defined.

Lemma toggle_failure_keeps_record_witness :
  exists t st',
    Client.toggleUnits offline showing = (t, Returned st')
    /\ Client.State.weatherData st' = Some (NextResponse.Data metric_record)
    /\ Client.State.units st' = "imperial"
    /\ units metric_record <> Client.State.units st'.
Proof.
  destruct (toggle_failure_keeps_record offline showing
              (NextResponse.Data metric_record) eq_refl eq_refl
              (or_introl (ex_intro _ "TypeError: Failed to fetch" eq_refl)))
    as (t & st' & Hrun & Hd & _ & _ & Hu & Hmix).
  exists t, st'. split; [exact Hrun |]. split; [exact Hd |]. split; [exact Hu |].
  apply (Hmix metric_record eq_refl eq_refl). right. reflexivity.
Defined.

Lemma toggle_sends_blank_city_witness :
  Client.handleSearch offline blank_box = ([], Returned blank_box)
  /\ fetches (fst (Client.toggleUnits offline blank_box))
     = ["/api/weather?city=&units=imperial"].
Proof.
  destruct (toggle_sends_blank_city toLowerCase Number_toString offline blank_box
              (NextResponse.Data metric_record) (Some key) unreachable None
              eq_refl eq_refl eq_refl)
    as (Hs & Hf & _).
  split; [exact Hs | exact Hf].
Defined.

Lemma credential_failures_show_setup_steps_witness :
  exists t' st',
    Client.handleSearch
      (answering {| NextResponse.status := 500;
                    NextResponse.payload :=
                      NextResponse.Error
                        "OpenWeatherMap API key not configured" |})
      searching
    = (t', Returned st')
    /\ Client.State.error st' = "OpenWeatherMap API key not configured"
    /\ Client.showsSetupSteps (Client.State.error st') = true.
Proof.
  destruct (credential_failures_show_setup_steps toLowerCase Number_toString
              None unreachable "Paris" None []
              {| NextResponse.status := 500;
                 NextResponse.payload :=
                   NextResponse.Error
                     "OpenWeatherMap API key not configured" |}
              searching eq_refl eq_refl eq_refl (or_introl eq_refl))
    as (t' & st' & Hrun & _ & Hs & _).
  exists t', st'. split; [exact Hrun |]. split; [| exact Hs].
  assert (E : snd (Client.handleSearch
                     (answering {| NextResponse.status := 500;
                                   NextResponse.payload :=
                                     NextResponse.Error
                                       "OpenWeatherMap API key not configured" |})
                     searching)
              = Returned st') by (rewrite Hrun; reflexivity).
  injection E as <-. reflexivity.
Defined.

Lemma search_shows_one_panel_witness :
  exists t st',
    Client.handleSearch offline searching = (t, Returned st')
    /\ Client.showsWelcome st' = false.
Proof.
  destruct (search_shows_one_panel offline searching eq_refl)
    as (t & st' & Hrun & Hw & _).
  exists t, st'. split; [exact Hrun | exact Hw].
Defined.

End MoreRuns.
